(** * GoogleAnalytics: pagination, header normalisation and flattening

    A shallow embedding of [google_analytics/__init__.py]:
    [get_report], [get_full_report], [del_ga] and
    [response_to_data_frame], with the properties of the pagination loop
    and of the flattening of a report into flat records. *)

From stdpp Require Import gmap strings list fin_maps.
From Stdlib Require Import ZArith Lia.

Open Scope string_scope.
Open Scope list_scope.
Import Stdlib.Strings.Ascii.AsciiSyntax.
Delimit Scope char_scope with char.

(** ** Python values

    The API answer is a tree of [dict]s decoded from JSON.  Each dict is a
    record holding the keys the code reads; a key is absent, present with
    [None], or present with a value of the expected type.  A Python value
    that may be [None] is an [option]. *)

Inductive field (A : Type) : Type :=
| Missing
| Null
| Val (a : A).
Arguments Missing {A}.
Arguments Null {A}.
Arguments Val {A} a.

Inductive exn : Type :=
| KeyError
| IndexError
| TypeError
| AttributeError
| UnboundLocalError
| ApiError (status : Z).

Inductive result (A : Type) : Type :=
| Ok (a : A)
| Raise (e : exn).
Arguments Ok {A} a.
Arguments Raise {A} e.

Definition bind {A B} (m : result A) (k : A → result B) : result B :=
  match m with
  | Ok a => k a
  | Raise e => Raise e
  end.

Notation "'let*' x ':=' m 'in' k" := (bind m (fun x => k))
  (at level 10, x name, m at level 100, k at level 200).

(** [d.get(k)] *)
Definition get {A} (f : field A) : option A :=
  match f with
  | Val a => Some a
  | Missing | Null => None
  end.

(** [d.get(k, default)] *)
Definition get_or {A} (f : field A) (default : A) : option A :=
  match f with
  | Val a => Some a
  | Missing => Some default
  | Null => None
  end.

(** [d[k]] *)
Definition getitem {A} (f : field A) : result (option A) :=
  match f with
  | Val a => Ok (Some a)
  | Null => Ok None
  | Missing => Raise KeyError
  end.

(** [d[k] = v] stores the value, [None] included. *)
Definition stored {A} (v : option A) : field A :=
  match v with
  | Some a => Val a
  | None => Null
  end.

(** The receiver of a method call ([x.get], [x.extend]): [None] has no
    attributes. *)
Definition attribute {A} (x : option A) : result A :=
  match x with
  | Some a => Ok a
  | None => Raise AttributeError
  end.

(** The receiver of [x[...]]: [None] is not subscriptable. *)
Definition subscriptable {A} (x : option A) : result A :=
  match x with
  | Some a => Ok a
  | None => Raise TypeError
  end.

(** The operand of [for], [zip], [map], [enumerate], [extend]: [None] is
    not iterable. *)
Definition iterable {A} (x : option (list A)) : result (list A) :=
  match x with
  | Some l => Ok l
  | None => Raise TypeError
  end.

(** [x[0]] *)
Definition first {A} (x : option (list A)) : result A :=
  match x with
  | None => Raise TypeError
  | Some [] => Raise IndexError
  | Some (a :: _) => Ok a
  end.

(** [zip(a, b)]: pairs positionally and stops at the shorter operand. *)
Definition pyzip {A B} (a : option (list A)) (b : option (list B))
  : result (list (A * B)) :=
  let* a := iterable a in
  let* b := iterable b in
  Ok (zip a b).

(** A [for] loop whose body may raise, threading the variables it
    assigns. *)
Fixpoint for_each {A S} (body : S → A → result S) (l : list A) (s : S)
  : result S :=
  match l with
  | [] => Ok s
  | a :: l => let* s := body s a in for_each body l s
  end.

(** A [for] loop that appends one result per element. *)
Fixpoint collect {A B} (body : A → result B) (l : list A) : result (list B) :=
  match l with
  | [] => Ok []
  | a :: l =>
      let* b := body a in
      let* bs := collect body l in
      Ok (b :: bs)
  end.

(** A [str] is held as the bytes of its UTF-8 encoding, and its characters
    are the code points these bytes encode: a lead byte announces in its
    leading bits how many bytes the character takes ([0xxxxxxx] one,
    [110xxxxx] two, [1110xxxx] three, [11110xxx] four).  The encoding of a
    [str] is well formed; on other bytes a stray byte counts as a
    character of its own. *)
Definition char_width (lead : Ascii.ascii) : nat :=
  match lead with
  | Ascii.Ascii _ _ _ b3 b4 b5 b6 b7 =>
      if negb b7 then 1
      else if negb b6 then 1
      else if negb b5 then 2
      else if negb b4 then 3
      else if negb b3 then 4
      else 1
  end.

Fixpoint drop_bytes (n : nat) (s : string) : string :=
  match n, s with
  | O, _ => s
  | S _, EmptyString => EmptyString
  | S n, String _ s => drop_bytes n s
  end.

Fixpoint take_bytes (n : nat) (s : string) : string :=
  match n, s with
  | O, _ => EmptyString
  | S _, EmptyString => EmptyString
  | S n, String c s => String c (take_bytes n s)
  end.

(** [s[n:]] and [s[:n]] on a [str]: the slices count characters, not
    bytes. *)
Fixpoint slice_from (n : nat) (s : string) : string :=
  match n, s with
  | O, _ => s
  | S _, EmptyString => EmptyString
  | S n, String lead s => slice_from n (drop_bytes (char_width lead - 1) s)
  end.

Fixpoint slice_to (n : nat) (s : string) : string :=
  match n, s with
  | O, _ => EmptyString
  | S _, EmptyString => EmptyString
  | S n, String lead s =>
      String lead
        (String.append (take_bytes (char_width lead - 1) s)
           (slice_to n (drop_bytes (char_width lead - 1) s)))
  end.

(** [len(s)] on a [str]: the number of its characters; [skip] counts the
    bytes still owed to the character under way. *)
Fixpoint count_chars (skip : nat) (s : string) : nat :=
  match s with
  | EmptyString => 0
  | String lead s =>
      match skip with
      | S skip => count_chars skip s
      | O => S (count_chars (char_width lead - 1) s)
      end
  end.

Definition str_len (s : string) : nat := count_chars 0 s.

(** ** The response of [reports().batchGet] *)

Record MetricHeaderEntry : Type := {
  k_name : field string;
  k_type : field string
}.

Record MetricHeader : Type := {
  k_metricHeaderEntries : field (list MetricHeaderEntry)
}.

Record ColumnHeader : Type := {
  k_dimensions : field (list string);
  k_metricHeader : field MetricHeader
}.

Record DateRangeValues : Type := {
  k_values : field (list string)
}.

Record ReportRow : Type := {
  k_row_dimensions : field (list string);
  k_metrics : field (list DateRangeValues)
}.

Record ReportData : Type := {
  k_rows : field (list ReportRow)
}.

Record Report : Type := {
  k_columnHeader : field ColumnHeader;
  k_data : field ReportData;
  k_nextPageToken : field string
}.

Record Response : Type := {
  k_reports : field (list Report)
}.

(** The empty dict [{}] at each of these types. *)
Definition empty_MetricHeader : MetricHeader :=
  {| k_metricHeaderEntries := Missing |}.
Definition empty_ColumnHeader : ColumnHeader :=
  {| k_dimensions := Missing; k_metricHeader := Missing |}.
Definition empty_ReportData : ReportData :=
  {| k_rows := Missing |}.

(** ** [del_ga] *)

(** The body of [for header in metric_headers]. *)
Definition strip_ga (header : MetricHeaderEntry) : result MetricHeaderEntry :=
  let* name := getitem (k_name header) in
  let* name := subscriptable name in
  if String.eqb (slice_to 3 name) "ga:"
  then Ok {| k_name := Val (slice_from 3 name); k_type := k_type header |}
  else Ok header.

Definition del_ga (response : Response) : result Response :=
  let* reports := getitem (k_reports response) in
  let* reports := subscriptable reports in
  match reports with
  | [] => Raise IndexError
  | report :: others =>
      let* column_header := getitem (k_columnHeader report) in
      let* column_header := subscriptable column_header in
      let* metric_header := getitem (k_metricHeader column_header) in
      let* metric_header := subscriptable metric_header in
      let* metric_headers := getitem (k_metricHeaderEntries metric_header) in
      let* dimensions := getitem (k_dimensions column_header) in
      let* dimensions := iterable dimensions in
      let dimensions := map (slice_from 3) dimensions in
      let* metric_headers := iterable metric_headers in
      let* metric_headers := collect strip_ga metric_headers in
      Ok {| k_reports := Val (
              {| k_columnHeader := Val
                   {| k_dimensions := Val dimensions;
                      k_metricHeader := Val
                        {| k_metricHeaderEntries := Val metric_headers |} |};
                 k_data := k_data report;
                 k_nextPageToken := k_nextPageToken report |} :: others) |}
  end.

(** ** [response_to_data_frame] *)

(** [df_row]: a dict from column name to value.  A metric header entry
    without a name is filed under [None]. *)
Abbreviation FlatRecord := (gmap (option string) string).

(** [df_row[k] = v] for each pair in turn. *)
Definition setitems (df_row : FlatRecord) (kvs : list (option string * string))
  : FlatRecord :=
  fold_left (λ df_row kv, <[kv.1 := kv.2]> df_row) kvs df_row.

(** The body of [for _, values in enumerate(date_range_values)]. *)
Definition flatten_group (metric_headers : option (list MetricHeaderEntry))
    (df_row : FlatRecord) (values : DateRangeValues) : result FlatRecord :=
  let* pairs := pyzip metric_headers (get (k_values values)) in
  Ok (setitems df_row
        (map (λ p : MetricHeaderEntry * string, (get (k_name p.1), p.2)) pairs)).

(** The body of [for row in rows]: the [df_row] appended to [df_raws]. *)
Definition flatten_row (dimension_headers : option (list string))
    (metric_headers : option (list MetricHeaderEntry)) (row : ReportRow)
  : result FlatRecord :=
  let df_row : FlatRecord := ∅ in
  let dimensions := get_or (k_row_dimensions row) [] in
  let date_range_values := get_or (k_metrics row) [] in
  let* pairs := pyzip dimension_headers dimensions in
  let df_row :=
    setitems df_row (map (λ p : string * string, (Some p.1, p.2)) pairs) in
  let* date_range_values := iterable date_range_values in
  for_each (flatten_group metric_headers) date_range_values df_row.

(** The body of [for report in response.get('reports', [])]: the value of
    [df_raws] when the iteration ends. *)
Definition flatten_report (report : Report) : result (list FlatRecord) :=
  let column_header := get_or (k_columnHeader report) empty_ColumnHeader in
  let* column_header := attribute column_header in
  let dimension_headers := get_or (k_dimensions column_header) [] in
  let* metric_header :=
    attribute (get_or (k_metricHeader column_header) empty_MetricHeader) in
  let metric_headers := get_or (k_metricHeaderEntries metric_header) [] in
  let* data := attribute (get_or (k_data report) empty_ReportData) in
  let rows := get_or (k_rows data) [] in
  let* rows := iterable rows in
  collect (flatten_row dimension_headers metric_headers) rows.

(** The table is represented by the list of records handed to
    [pd.DataFrame].  [df_raws] is unbound until the first iteration. *)
Definition response_to_data_frame (response : Response)
  : result (list FlatRecord) :=
  let* reports := iterable (get_or (k_reports response) []) in
  let* df_raws :=
    for_each (λ _ report, let* t := flatten_report report in Ok (Some t))
      reports None in
  match df_raws with
  | Some df_raws => Ok df_raws
  | None => Raise UnboundLocalError
  end.

(** ** [get_report] and [get_full_report] *)

Record DateRange : Type := {
  startDate : string;
  endDate : string
}.

Section Paginator.

(** The query is opaque to the pagination, and so is whatever lies behind
    [service.reports().batchGet(body=...).execute()]: one call takes the
    request body and the state of the outside world to a response, or to
    the exception it raises, and the next state. *)
Context {Dimensions Metrics Filters World : Type}.

Record ReportRequest : Type := {
  viewId : string;
  dateRanges : list DateRange;
  dimensions : Dimensions;
  metrics : Metrics;
  samplingLevel : string;
  pageSize : Z;
  pageToken : option string;
  dimensionFilterClauses : list Filters
}.

Variable execute : ReportRequest → World → result Response * World.

(** The arguments every call of one extraction shares. *)
Variable profile_id : string.
Variable dims : Dimensions.
Variable mets : Metrics.
Variable filters : Filters.
Variable date_from date_to : string.
Variable page_size : Z.

(** A computation that calls the service.  The state pairs the world with
    the log of the calls made so far (request and outcome, oldest first);
    the log is ghost state, the code never reads it.  [None] stands for a
    [while] loop that is still running when the fuel is spent. *)
Definition Event : Type := ReportRequest * result Response.
Definition State : Type := World * list Event.
Definition Fetch (A : Type) : Type := State → option (result A * State).

Definition fret {A} (r : result A) : Fetch A := λ s, Some (r, s).

Definition fbind {A B} (m : Fetch A) (k : A → Fetch B) : Fetch B :=
  λ s,
    match m s with
    | Some (Ok a, s) => k a s
    | Some (Raise e, s) => Some (Raise e, s)
    | None => None
    end.

Notation "'let%' x ':=' m 'in' k" := (fbind m (fun x => k))
  (at level 10, x name, m at level 100, k at level 200).

Definition report_request (next_page_token : option string) : ReportRequest :=
  {| viewId := profile_id;
     dateRanges := [{| startDate := date_from; endDate := date_to |}];
     dimensions := dims;
     metrics := mets;
     samplingLevel := "LARGE";
     pageSize := page_size;
     pageToken := next_page_token;
     dimensionFilterClauses := [filters] |}.

Definition get_report (next_page_token : option string) : Fetch Response :=
  λ s,
    let request := report_request next_page_token in
    let (response, world) := execute request s.1 in
    Some (response, (world, s.2 ++ [(request, response)])).

(** [response.get('reports')[0].get('data').get('rows')] *)
Definition first_rows (response : Response) : result (option (list ReportRow)) :=
  let* report := first (get (k_reports response)) in
  let* data := attribute (get (k_data report)) in
  Ok (get (k_rows data)).

(** [response.get('reports')[0].get('nextPageToken')] *)
Definition first_token (response : Response) : result (option string) :=
  let* report := first (get (k_reports response)) in
  Ok (get (k_nextPageToken report)).

(** [rows.extend(next_page.get('reports')[0].get('data').get('rows'))]:
    the method is looked up on [rows] before the argument is evaluated. *)
Definition rows_extend (rows : option (list ReportRow)) (next_page : Response)
  : result (option (list ReportRow)) :=
  let* rows := attribute rows in
  let* more := first_rows next_page in
  let* more := iterable more in
  Ok (Some (rows ++ more)).

(** [while next_page_token is not None: ...] *)
Fixpoint while_next_page (fuel : nat) (rows : option (list ReportRow))
    (next_page_token : option string) : Fetch (option (list ReportRow)) :=
  match next_page_token with
  | None => fret (Ok rows)
  | Some _ =>
      match fuel with
      | O => λ _, None
      | S fuel =>
          let% next_page := get_report next_page_token in
          let% next_page_token := fret (first_token next_page) in
          let% rows := fret (rows_extend rows next_page) in
          while_next_page fuel rows next_page_token
      end
  end.

(** [response['reports'][0]['data']['rows'] = rows] *)
Definition set_first_rows (response : Response) (rows : option (list ReportRow))
  : result Response :=
  let* reports := getitem (k_reports response) in
  let* reports := subscriptable reports in
  match reports with
  | [] => Raise IndexError
  | report :: others =>
      let* data := getitem (k_data report) in
      let* data := subscriptable data in
      Ok {| k_reports := Val (
              {| k_columnHeader := k_columnHeader report;
                 k_data := Val {| k_rows := stored rows |};
                 k_nextPageToken := k_nextPageToken report |} :: others) |}
  end.

(** [rows] aliases the row list of the first page, which [extend] grows in
    place; the pages are separate objects (each [execute] decodes a new
    document), so the list is read here only through [rows] and through
    [response] once the loop is over, where the final assignment stores it
    again. *)
Definition get_full_report (fuel : nat) (next_page_token : option string)
  : Fetch Response :=
  let% response := get_report next_page_token in
  let% rows := fret (first_rows response) in
  let% next_page_token := fret (first_token response) in
  let% rows := while_next_page fuel rows next_page_token in
  let% response := fret (set_first_rows response rows) in
  fret (Ok response).

(** *** Providers

    [serves token world pages world']: called with [token] in [world], the
    service answers with the first of [pages]; every page but the last
    carries a token, with which the service then answers with the next
    page; the last page carries none, and leaves [world']. *)
Inductive serves : option string → World → list Response → World → Prop :=
| serves_last token world page world' :
    execute (report_request token) world = (Ok page, world') →
    first_token page = Ok None →
    serves token world [page] world'
| serves_more token world page world1 next pages world' :
    execute (report_request token) world = (Ok page, world1) →
    first_token page = Ok (Some next) →
    serves (Some next) world1 pages world' →
    serves token world (page :: pages) world'.

(** [fails token world pages e world']: the service answers with [pages]
    in the same way, each carrying a token, and then raises [e]. *)
Inductive fails : option string → World → list Response → exn → World → Prop :=
| fails_now token world e world' :
    execute (report_request token) world = (Raise e, world') →
    fails token world [] e world'
| fails_later token world page world1 next pages e world' :
    execute (report_request token) world = (Ok page, world1) →
    first_token page = Ok (Some next) →
    fails (Some next) world1 pages e world' →
    fails token world (page :: pages) e world'.

(** [chained token events]: the calls of a loop entered with [token] that
    ran to its end, each made with the token of the page before it. *)
Inductive chained : option string → list Event → Prop :=
| chained_done : chained None []
| chained_fetch next page token events :
    first_token page = Ok token →
    chained token events →
    chained (Some next) ((report_request (Some next), Ok page) :: events).

End Paginator.

Arguments ReportRequest : clear implicits.

(** A simulated provider: the world is the script of the answers still to
    come, and each call consumes the first, whatever the request. *)
Definition scripted (_ : ReportRequest unit unit unit)
    (script : list (result Response)) : result Response * list (result Response) :=
  match script with
  | [] => (Raise (ApiError 500), [])
  | answer :: script => (answer, script)
  end.

(** [get_full_report] against a script, with an empty call log. *)
Definition run_scripted (script : list (result Response)) (fuel : nat) :=
  get_full_report scripted "view" tt tt tt "2020-09-01" "2020-09-01" 1000
    fuel None (script, []).

(** ** Readings of a response used in the statements *)

(** The rows and the metric header entries of a report, a key that is
    absent or [None] counting as an empty list. *)
Definition report_rows (report : Report) : list ReportRow :=
  match k_data report with
  | Val data => match k_rows data with Val rows => rows | _ => [] end
  | _ => []
  end.

Definition header_entries (column_header : field ColumnHeader)
  : list MetricHeaderEntry :=
  match column_header with
  | Val column_header =>
      match k_metricHeader column_header with
      | Val metric_header =>
          match k_metricHeaderEntries metric_header with
          | Val entries => entries
          | _ => []
          end
      | _ => []
      end
  | _ => []
  end.

Definition report_metric_headers (report : Report) : list MetricHeaderEntry :=
  header_entries (k_columnHeader report).

(** The metric header entries and the column header of the first report. *)
Definition first_metric_headers (response : Response) : list MetricHeaderEntry :=
  match k_reports response with
  | Val (report :: _) => report_metric_headers report
  | _ => []
  end.

Definition first_column_header (response : Response)
  : option (field ColumnHeader) :=
  match k_reports response with
  | Val (report :: _) => Some (k_columnHeader report)
  | _ => None
  end.

(** Shapes on which the flattening raises nothing: no key holds [None],
    and every metric group has its [values]. *)
Definition present {A} (f : field A) : bool :=
  match f with Val _ => true | _ => false end.

Definition not_null {A} (f : field A) : bool :=
  match f with Null => false | _ => true end.

Definition absent_or {A} (p : A → bool) (f : field A) : bool :=
  match f with
  | Val a => p a
  | Missing => true
  | Null => false
  end.

Definition row_well_shaped (row : ReportRow) : bool :=
  not_null (k_row_dimensions row)
  && absent_or (forallb (λ group, present (k_values group))) (k_metrics row).

Definition report_well_shaped (report : Report) : bool :=
  absent_or
    (λ column_header,
       not_null (k_dimensions column_header)
       && absent_or (λ metric_header,
                       not_null (k_metricHeaderEntries metric_header))
            (k_metricHeader column_header))
    (k_columnHeader report)
  && absent_or (λ data, absent_or (forallb row_well_shaped) (k_rows data))
       (k_data report).

(** ** Example data *)

Definition entry (name : string) : MetricHeaderEntry :=
  {| k_name := Val name; k_type := Val "INTEGER" |}.

Definition header (dimension_names metric_names : list string) : ColumnHeader :=
  {| k_dimensions := Val dimension_names;
     k_metricHeader :=
       Val {| k_metricHeaderEntries := Val (map entry metric_names) |} |}.

Definition row (dimension_values : list string) (groups : list (list string))
  : ReportRow :=
  {| k_row_dimensions := Val dimension_values;
     k_metrics := Val (map (λ group, {| k_values := Val group |}) groups) |}.

Definition report (column_header : ColumnHeader) (rows : list ReportRow)
    (token : field string) : Report :=
  {| k_columnHeader := Val column_header;
     k_data := Val {| k_rows := Val rows |};
     k_nextPageToken := token |}.

Definition page (column_header : ColumnHeader) (rows : list ReportRow)
    (token : field string) : Response :=
  {| k_reports := Val [report column_header rows token] |}.

(** The page of the flattening example. *)
Definition example_page : Response :=
  page (header ["date"; "sourceMedium"] ["sessions"])
    [row ["20200901"; "google / cpc"] [["42"]]] Missing.

(** A row with one metric group per date range, and a response holding
    two reports. *)
Definition two_ranges_report : Report :=
  report (header ["date"] ["sessions"; "users"])
    [row ["20200901"] [["10"; "7"]; ["20"; "9"]]] Missing.

Definition earlier_report : Report :=
  report (header ["date"] ["sessions"])
    [row ["20200831"] [["5"]]; row ["20200901"] [["6"]]] Missing.

Definition two_reports : Response :=
  {| k_reports := Val [earlier_report; two_ranges_report] |}.

(** Pages for the header normalisation: names with the ga: prefix, and a
    metric name that carries it twice. *)
Definition prefixed_page : Response :=
  {| k_reports :=
       Val [ report (header ["ga:date"; "ga:sourceMedium"] ["ga:sessions"; "users"])
               [row ["20200901"; "google / cpc"] [["42"; "17"]]] (Val "1000");
             earlier_report ] |}.

Definition doubly_prefixed_page : Response :=
  page (header [] ["ga:ga:sessions"]) [] Missing.

(** Scripts for the simulated provider: three pages; a failure in place
    of the second; a page whose token is the empty string; two pages with
    different headers. *)
Definition page1 : Response :=
  page (header ["ga:date"] ["ga:sessions"]) [row ["20200901"] [["1"]]]
    (Val "1000").

Definition page2 : Response :=
  page (header ["ga:date"] ["ga:sessions"])
    [row ["20200902"] [["2"]]; row ["20200903"] [["3"]]] (Val "2000").

Definition page3 : Response :=
  page (header ["ga:date"] ["ga:sessions"]) [row ["20200904"] [["4"]]] Missing.

Definition three_pages : list (result Response) :=
  [Ok page1; Ok page2; Ok page3].

Definition failing_script : list (result Response) :=
  [Ok page1; Raise (ApiError 403); Ok page3].

Definition empty_token_page : Response :=
  page (header ["ga:date"] ["ga:sessions"]) [row ["20200901"] [["1"]]] (Val "").

Definition empty_token_script : list (result Response) :=
  [Ok empty_token_page; Ok page3].

Definition country_page : Response :=
  page (header ["ga:country"] ["ga:users"]) [row ["FR"] [["7"]]] Missing.

Definition two_headers_script : list (result Response) :=
  [Ok page1; Ok country_page].

(** ** Further readings and providers *)

(** The list under a key, a key that is absent or [None] counting as an
    empty list. *)
Definition field_list {A} (f : field (list A)) : list A :=
  match f with
  | Val l => l
  | _ => []
  end.

Definition report_dimension_headers (report : Report) : list string :=
  match k_columnHeader report with
  | Val column_header => field_list (k_dimensions column_header)
  | _ => []
  end.

(** The assignments the flattening makes for a row, in the order it makes
    them: each dimension header with the dimension value at its position,
    then, group after group, each metric name with the value at its
    position; the shorter list of a pairing bounds it. *)
Definition row_pairs (dimension_headers : list string)
    (metric_headers : list MetricHeaderEntry) (row : ReportRow)
  : list (option string * string) :=
  map (λ p : string * string, (Some p.1, p.2))
    (zip dimension_headers (field_list (k_row_dimensions row)))
  ++ concat
       (map (λ group : DateRangeValues,
               map (λ p : MetricHeaderEntry * string, (get (k_name p.1), p.2))
                 (zip metric_headers (field_list (k_values group))))
          (field_list (k_metrics row))).

(** The dict of a list of assignments, a later one replacing an earlier
    one of the same key. *)
Definition record_of (pairs : list (option string * string)) : FlatRecord :=
  list_to_map (reverse pairs).

(** The responses [del_ga] accepts: a first report whose column header
    has its dimensions and its metric header entries, each entry with a
    name. *)
Definition del_ga_ready (response : Response) : bool :=
  match k_reports response with
  | Val (report :: _) =>
      match k_columnHeader report with
      | Val column_header =>
          present (k_dimensions column_header)
          && match k_metricHeader column_header with
             | Val metric_header =>
                 match k_metricHeaderEntries metric_header with
                 | Val entries => forallb (λ header, present (k_name header)) entries
                 | _ => false
                 end
             | _ => false
             end
      | _ => false
      end
  | _ => false
  end.

(** A provider that answers every call with the same page, which carries a
    continuation token. *)
Definition endless (_ : ReportRequest unit unit unit) (world : unit)
  : result Response * unit :=
  (Ok page1, world).

(** A page of a query that matched nothing: the report has its data, and
    the data no rows. *)
Definition no_rows_page : Response :=
  {| k_reports :=
       Val [ {| k_columnHeader := Val (header ["ga:date"] ["ga:sessions"]);
                k_data := Val {| k_rows := Missing |};
                k_nextPageToken := Missing |} ] |}.

(** Two outcomes of a flattening that agree but for the keys of the
    records: tables of the same length, or the same exception. *)
Definition same_outcome (r r1 : result (list FlatRecord)) : Prop :=
  match r, r1 with
  | Ok table, Ok table1 => length table1 = length table
  | Raise e, Raise e1 => e1 = e
  | _, _ => False
  end.

(** A page whose second dimension header is not in ASCII: four Cyrillic
    letters of two bytes each. *)
Definition cyrillic_page : Response :=
  page (header ["ga:date"; "дата"] ["ga:sessions"]) [] Missing.

(** A page without rows that yet carries a continuation token. *)
Definition no_rows_token_page : Response :=
  {| k_reports :=
       Val [ {| k_columnHeader := Val (header ["ga:date"] ["ga:sessions"]);
                k_data := Val {| k_rows := Missing |};
                k_nextPageToken := Val "1000" |} ] |}.

Section Runs.

Context {Dimensions Metrics Filters : Type}.
Variable profile_id : string.
Variable dims : Dimensions.
Variable mets : Metrics.
Variable filters : Filters.
Variable date_from date_to : string.
Variable page_size : Z.

(** [linked token events]: the first of [events] is a call made with
    [token], and every call that has a successor returned a page with a
    continuation token, with which the successor is made. *)
Fixpoint linked (token : option string)
    (events : list (ReportRequest Dimensions Metrics Filters * result Response))
  : Prop :=
  match events with
  | [] => True
  | event :: events =>
      event.1
      = report_request profile_id dims mets filters date_from date_to page_size
          token
      ∧ (events ≠ [] →
         ∃ page next,
           event.2 = Ok page
           ∧ first_token page = Ok (Some next)
           ∧ linked (Some next) events)
  end.

End Runs.

(** * Properties *)

(** ** Loops *)

Lemma bind_Ok {A B} (m : result A) (k : A → result B) (b : B) :
  bind m k = Ok b → ∃ a, m = Ok a ∧ k a = Ok b.
Proof. destruct m as [a|e]; simpl; [eauto | discriminate]. Qed.

Lemma for_each_app {A S} (body : S → A → result S) (l1 l2 : list A) (s : S) :
  for_each body (l1 ++ l2) s
  = let* s1 := for_each body l1 s in for_each body l2 s1.
Proof.
  revert s. induction l1 as [|a l1 IH]; intros s; simpl; [done|].
  destruct (body s a); simpl; [apply IH | done].
Qed.

Lemma collect_length {A B} (body : A → result B) (l : list A) (bs : list B) :
  collect body l = Ok bs → length bs = length l.
Proof.
  revert bs. induction l as [|a l IH]; intros bs; simpl.
  - by intros [= <-].
  - intros H. apply bind_Ok in H as (b & _ & H).
    apply bind_Ok in H as (bs' & Hbs & [= <-]). simpl. f_equal. by apply IH.
Qed.

Lemma collect_lookup {A B} (body : A → result B) (l : list A) (bs : list B)
    (i : nat) (a : A) :
  collect body l = Ok bs → l !! i = Some a →
  ∃ b, bs !! i = Some b ∧ body a = Ok b.
Proof.
  revert bs i. induction l as [|a' l IH]; intros bs i; simpl; [done|].
  intros H. apply bind_Ok in H as (b & Hb & H).
  apply bind_Ok in H as (bs' & Hbs & [= <-]).
  destruct i as [|i]; simpl.
  - intros [= ->]. eauto.
  - intros Hi. by apply IH.
Qed.

Lemma collect_total {A B} (body : A → result B) (l : list A) :
  Forall (λ a, ∃ b, body a = Ok b) l → ∃ bs, collect body l = Ok bs.
Proof.
  induction 1 as [|a l [b Hb] _ [bs Hbs]]; simpl; [eauto|].
  rewrite Hb. simpl. rewrite Hbs. simpl. eauto.
Qed.

(** ** Flattening *)

Lemma setitems_snoc (df_row : FlatRecord) kvs k v :
  setitems df_row (kvs ++ [(k, v)]) = <[k := v]> (setitems df_row kvs).
Proof. unfold setitems. by rewrite fold_left_app. Qed.

(** Among the pairs assigned in turn, the one that no later pair shadows
    is the one the dict ends up with. *)
Lemma setitems_lookup (df_row : FlatRecord) kvs j k v :
  kvs !! j = Some (k, v) →
  (∀ j' k' v', j < j' → kvs !! j' = Some (k', v') → k' ≠ k) →
  setitems df_row kvs !! k = Some v.
Proof.
  revert j. induction kvs as [|[k1 v1] kvs IH] using rev_ind; intros j Hj Hlast.
  - done.
  - rewrite setitems_snoc.
    destruct (decide (j = length kvs)) as [->|Hne].
    + rewrite list_lookup_middle in Hj by done. injection Hj as -> ->.
      apply lookup_insert_eq.
    + assert (j < length kvs) as Hlt.
      { apply lookup_lt_Some in Hj. rewrite length_app in Hj. simpl in Hj. lia. }
      rewrite lookup_insert_ne.
      * apply (IH j).
        -- by rewrite lookup_app_l in Hj.
        -- intros j' k' v' Hjj' Hj'. apply (Hlast j' k' v' Hjj').
           rewrite lookup_app_l; [done|]. by apply lookup_lt_Some in Hj'.
      * apply (Hlast (length kvs) k1 v1 Hlt). by rewrite list_lookup_middle.
Qed.

Lemma for_each_total {A S} (body : S → A → result S) (l : list A) (s : S) :
  Forall (λ a, ∀ s, ∃ s', body s a = Ok s') l → ∃ s', for_each body l s = Ok s'.
Proof.
  intros H. revert s. induction H as [|a l Ha _ IH]; intros s; simpl; [eauto|].
  destruct (Ha s) as [s1 ->]. simpl. apply IH.
Qed.

(** What a successful [flatten_report] did: one [flatten_row] per row of
    the report, under the header lists it read. *)
Lemma flatten_report_Ok (report : Report) (table : list FlatRecord) :
  flatten_report report = Ok table →
  ∃ dimension_headers metric_headers,
    collect (flatten_row dimension_headers metric_headers) (report_rows report)
    = Ok table
    ∧ (∀ l, metric_headers = Some l → l = report_metric_headers report).
Proof.
  unfold flatten_report. intros H.
  apply bind_Ok in H as (column_header & Hch & H).
  apply bind_Ok in H as (metric_header & Hmh & H).
  apply bind_Ok in H as (data & Hdata & H).
  apply bind_Ok in H as (rows & Hrows & H).
  exists (get_or (k_dimensions column_header) []),
    (get_or (k_metricHeaderEntries metric_header) []).
  split.
  - replace (report_rows report) with rows; [done|].
    unfold report_rows.
    destruct (k_data report) as [| |d]; simpl in Hdata;
      [injection Hdata as <- | discriminate | injection Hdata as <-].
    + simpl in Hrows. by injection Hrows as <-.
    + destruct (k_rows d); simpl in Hrows;
        [by injection Hrows as <- | discriminate | by injection Hrows as <-].
  - unfold report_metric_headers, header_entries.
    destruct (k_columnHeader report) as [| |ch]; simpl in Hch;
      [injection Hch as <- | discriminate | injection Hch as <-]; simpl in Hmh.
    + injection Hmh as <-. simpl. by intros l [= <-].
    + destruct (k_metricHeader ch) as [| |mh]; simpl in Hmh;
        [injection Hmh as <- | discriminate | injection Hmh as <-].
      * simpl. by intros l [= <-].
      * destruct (k_metricHeaderEntries mh); simpl; by intros l [= <-].
Qed.

Lemma flatten_group_total (metric_headers : list MetricHeaderEntry)
    (df_row : FlatRecord) (group : DateRangeValues) :
  present (k_values group) = true →
  ∃ df_row', flatten_group (Some metric_headers) df_row group = Ok df_row'.
Proof.
  unfold flatten_group. destruct (k_values group); simpl; try discriminate.
  eauto.
Qed.

Lemma flatten_row_total (dimension_headers : list string)
    (metric_headers : list MetricHeaderEntry) (row : ReportRow) :
  row_well_shaped row = true →
  ∃ df_row,
    flatten_row (Some dimension_headers) (Some metric_headers) row = Ok df_row.
Proof.
  unfold row_well_shaped, flatten_row. intros [Hd Hm]%andb_prop.
  destruct (k_row_dimensions row); simpl in *; try discriminate.
  all: destruct (k_metrics row) as [| |groups]; simpl in *; try discriminate.
  all: eauto.
  all: apply for_each_total, Forall_forall; intros group Hin df_row.
  all: apply flatten_group_total.
  all: rewrite forallb_forall in Hm; apply Hm; by apply list_elem_of_In.
Qed.

Lemma flatten_report_total (report : Report) :
  report_well_shaped report = true → ∃ table, flatten_report report = Ok table.
Proof.
  unfold report_well_shaped, flatten_report. intros [Hh Hd]%andb_prop.
  assert (∀ dh mh rows, forallb row_well_shaped rows = true →
            ∃ table, collect (flatten_row (Some dh) (Some mh)) rows = Ok table)
    as Hrows.
  { intros dh mh rows Hrows. apply collect_total, Forall_forall.
    intros row Hin. apply flatten_row_total.
    rewrite forallb_forall in Hrows. apply Hrows. by apply list_elem_of_In. }
  destruct (k_columnHeader report) as [| |[dims mh]]; simpl in *;
    try discriminate.
  all: destruct (k_data report) as [| |[rows]]; simpl in *; try discriminate.
  all: try destruct rows as [| |rows]; simpl in *; try discriminate.
  all: try (apply andb_prop in Hh as [Hdims Hmh]).
  all: try (destruct dims as [| |dims]; simpl in *; try discriminate).
  all: try (destruct mh as [| |[entries]]; simpl in *; try discriminate).
  all: try (destruct entries as [| |entries]; simpl in *; try discriminate).
  all: eauto.
Qed.

(** The reports before the last are flattened and their table dropped. *)
Lemma for_each_flatten (reports : list Report) (df_raws : option (list FlatRecord)) :
  (∃ df_raws',
     for_each (λ _ report, let* t := flatten_report report in Ok (Some t))
       reports df_raws = Ok df_raws')
  ↔ Forall (λ report, ∃ table, flatten_report report = Ok table) reports.
Proof.
  revert df_raws. induction reports as [|report reports IH]; intros df_raws; simpl.
  - split; eauto.
  - rewrite Forall_cons. destruct (flatten_report report) as [table|e]; simpl.
    + rewrite IH. split; [eauto | by intros [_ H]].
    + split; [intros [? [=]] | intros [[? [=]] _]].
Qed.

Lemma response_to_data_frame_last response earlier report :
  k_reports response = Val (earlier ++ [report]) →
  Forall (λ report, ∃ table, flatten_report report = Ok table) earlier →
  response_to_data_frame response = flatten_report report.
Proof.
  intros Hreports Hearlier. unfold response_to_data_frame.
  rewrite Hreports. simpl. rewrite for_each_app.
  apply (for_each_flatten earlier None) in Hearlier as [df_raws ->]. simpl.
  by destruct (flatten_report report).
Qed.

Lemma response_to_data_frame_Ok response earlier report table :
  k_reports response = Val (earlier ++ [report]) →
  response_to_data_frame response = Ok table →
  Forall (λ report, ∃ table, flatten_report report = Ok table) earlier.
Proof.
  intros Hreports. unfold response_to_data_frame.
  rewrite Hreports. simpl. rewrite for_each_app. intros H.
  apply bind_Ok in H as (df_raws & H & _).
  apply bind_Ok in H as (df_raws1 & H & _).
  apply (for_each_flatten earlier None). eauto.
Qed.

Lemma lookup_map {A B} (f : A → B) (l : list A) (i : nat) :
  map f l !! i = f <$> l !! i.
Proof. exact (list_lookup_fmap f l i). Qed.

(** C2. The page with dimension headers date and sourceMedium, metric
    header sessions, and one row with the dimension values 20200901 and
    google / cpc and the single metric group 42 is flattened to exactly one
    record, which maps date, sourceMedium and sessions to these values. *)
Theorem flattening_example :
  response_to_data_frame example_page
  = Ok [ {[ Some "date" := "20200901";
            Some "sourceMedium" := "google / cpc";
            Some "sessions" := "42" ]} ].
Proof. vm_compute. reflexivity. Qed.

(** C8. [response_to_data_frame] produces one record per row: whenever it
    returns a table, the table is as long as the row list of the (last)
    report.  When no report holds a [None] and every metric group has its
    values it raises nothing and returns a table, which is empty when the
    row list is empty. *)
Theorem one_record_per_row (response : Response) (earlier : list Report)
    (report : Report) :
  k_reports response = Val (earlier ++ [report]) →
  (∀ table,
     response_to_data_frame response = Ok table →
     length table = length (report_rows report))
  ∧ (forallb report_well_shaped (earlier ++ [report]) = true →
     ∃ table,
       response_to_data_frame response = Ok table
       ∧ (report_rows report = [] → table = [])).
Proof.
  intros Hreports.
  assert (∀ table,
            response_to_data_frame response = Ok table →
            length table = length (report_rows report)) as Hlen.
  { intros table Hrun.
    pose proof (response_to_data_frame_Ok _ _ _ _ Hreports Hrun) as Hearlier.
    rewrite (response_to_data_frame_last _ _ _ Hreports Hearlier) in Hrun.
    apply flatten_report_Ok in Hrun as (dh & mh & Hcollect & _).
    by apply collect_length in Hcollect. }
  split; [done|]. intros Hshape. rewrite forallb_app in Hshape.
  apply andb_prop in Hshape as [Hearlier Hreport]. simpl in Hreport.
  rewrite andb_true_r in Hreport.
  destruct (flatten_report_total report Hreport) as [table Htable].
  assert (response_to_data_frame response = Ok table) as Hrun.
  { rewrite <- Htable. apply (response_to_data_frame_last _ earlier); [done|].
    apply Forall_forall. intros r Hin. apply flatten_report_total.
    rewrite forallb_forall in Hearlier. apply Hearlier. by apply list_elem_of_In. }
  exists table. split; [done|].
  intros Hnil. apply Hlen in Hrun. rewrite Hnil in Hrun. by destruct table.
Qed.

(** C8 on the response with two reports. *)
Lemma one_record_per_row_witness :
  (∀ table,
     response_to_data_frame two_reports = Ok table →
     length table = length (report_rows two_ranges_report))
  ∧ ∃ table,
      response_to_data_frame two_reports = Ok table
      ∧ (report_rows two_ranges_report = [] → table = []).
Proof.
  destruct (one_record_per_row two_reports [earlier_report] two_ranges_report
              eq_refl) as [Hlength Htotal].
  split; [exact Hlength|]. apply Htotal. reflexivity.
Defined.

(** C9. When the reports list ends with [report], a table is returned
    exactly when every earlier report can be flattened, and it is then the
    table of [report] alone: the rows of the earlier reports are dropped.
    This covers every response with two or more reports. *)
Theorem last_report_wins (response : Response) (earlier : list Report)
    (report : Report) (table : list FlatRecord) :
  k_reports response = Val (earlier ++ [report]) →
  response_to_data_frame response = Ok table
  ↔ Forall (λ report, ∃ table, flatten_report report = Ok table) earlier
    ∧ flatten_report report = Ok table.
Proof.
  intros Hreports. split.
  - intros Hrun.
    pose proof (response_to_data_frame_Ok _ _ _ _ Hreports Hrun) as Hearlier.
    split; [done|].
    by rewrite <- (response_to_data_frame_last _ _ _ Hreports Hearlier).
  - intros [Hearlier Htable].
    by rewrite (response_to_data_frame_last _ _ _ Hreports Hearlier).
Qed.

(** C9 on the response with two reports: the table is the one record of
    the second. *)
Lemma last_report_wins_witness :
  k_reports two_reports = Val ([earlier_report] ++ [two_ranges_report])
  ∧ response_to_data_frame two_reports
    = Ok [ {[ Some "date" := "20200901"; Some "sessions" := "20";
              Some "users" := "9" ]} ].
Proof.
  split; [reflexivity|].
  apply (last_report_wins two_reports [earlier_report] two_ranges_report);
    [reflexivity|].
  split.
  - repeat constructor. eexists. vm_compute. reflexivity.
  - vm_compute. reflexivity.
Defined.

(** C6. In the record of a row, a metric header is mapped to the value the
    last metric group of the row holds at the header's position, whatever
    the earlier groups hold there, provided that no later header with a
    value in that group bears the same name.  This covers every row with
    two or more groups. *)
Theorem last_group_wins (response : Response) (earlier : list Report)
    (report : Report) (table : list FlatRecord) (i : nat) (row : ReportRow)
    (groups : list DateRangeValues) (last_group : DateRangeValues)
    (values : list string) (j : nat) (header : MetricHeaderEntry)
    (value : string) :
  k_reports response = Val (earlier ++ [report]) →
  response_to_data_frame response = Ok table →
  report_rows report !! i = Some row →
  k_metrics row = Val (groups ++ [last_group]) →
  k_values last_group = Val values →
  report_metric_headers report !! j = Some header →
  values !! j = Some value →
  (∀ j' header',
     j < j' → j' < length values →
     report_metric_headers report !! j' = Some header' →
     get (k_name header') ≠ get (k_name header)) →
  ∃ df_row,
    table !! i = Some df_row ∧ df_row !! get (k_name header) = Some value.
Proof.
  intros Hreports Hrun Hrow Hmetrics Hvalues Hheader Hvalue Hlast.
  pose proof (response_to_data_frame_Ok _ _ _ _ Hreports Hrun) as Hearlier.
  rewrite (response_to_data_frame_last _ _ _ Hreports Hearlier) in Hrun.
  apply flatten_report_Ok in Hrun as (dh & mh & Hcollect & Hmh).
  destruct (collect_lookup _ _ _ _ _ Hcollect Hrow) as (df_row & Hi & Hflat).
  exists df_row. split; [done|].
  unfold flatten_row in Hflat. rewrite Hmetrics in Hflat.
  apply bind_Ok in Hflat as (pairs & _ & Hflat). simpl in Hflat.
  rewrite for_each_app in Hflat.
  apply bind_Ok in Hflat as (df_row1 & _ & Hgroup). simpl in Hgroup.
  apply bind_Ok in Hgroup as (df_row2 & Hgroup & [= <-]).
  unfold flatten_group in Hgroup. rewrite Hvalues in Hgroup.
  destruct mh as [metric_headers|]; simpl in Hgroup; [|discriminate].
  injection Hgroup as <-. rewrite (Hmh metric_headers eq_refl).
  apply (setitems_lookup _ _ j).
  - rewrite lookup_map, lookup_zip_with, Hheader, Hvalue. done.
  - intros j' k' v' Hjj'. rewrite lookup_map, lookup_zip_with.
    destruct (report_metric_headers report !! j') as [header'|] eqn:Hheader';
      simpl; [|discriminate].
    destruct (values !! j') as [value'|] eqn:Hvalue'; simpl; [|discriminate].
    intros [= <- <-]. apply (Hlast j'); [done| |done].
    by apply lookup_lt_Some in Hvalue'.
Qed.

(** C6 on the row with the groups 10, 7 and 20, 9: sessions is mapped to
    20. *)
Lemma last_group_wins_witness :
  response_to_data_frame two_reports
  = Ok [ {[ Some "date" := "20200901"; Some "sessions" := "20";
            Some "users" := "9" ]} ]
  ∧ ∃ df_row,
      [ ({[ Some "date" := "20200901"; Some "sessions" := "20";
            Some "users" := "9" ]} : FlatRecord) ] !! 0 = Some df_row
      ∧ df_row !! get (k_name (entry "sessions")) = Some "20".
Proof.
  split; [vm_compute; reflexivity|].
  apply (last_group_wins two_reports [earlier_report] two_ranges_report _ 0
           (row ["20200901"] [["10"; "7"]; ["20"; "9"]])
           [ {| k_values := Val ["10"; "7"] |} ]
           {| k_values := Val ["20"; "9"] |} ["20"; "9"] 0 (entry "sessions"));
    try reflexivity.
  intros [|[|j']] header' Hlt Hlen; simpl in *; try lia.
  intros [= <-]. discriminate.
Defined.

(** ** Header normalisation *)

(** What a successful [del_ga] read and what it returned. *)
Lemma del_ga_Ok (response response1 : Response) :
  del_ga response = Ok response1 →
  ∃ report others column_header metric_header entries dims entries1,
    k_reports response = Val (report :: others)
    ∧ k_columnHeader report = Val column_header
    ∧ k_metricHeader column_header = Val metric_header
    ∧ k_metricHeaderEntries metric_header = Val entries
    ∧ k_dimensions column_header = Val dims
    ∧ collect strip_ga entries = Ok entries1
    ∧ response1
      = {| k_reports := Val (
             {| k_columnHeader := Val
                  {| k_dimensions := Val (map (slice_from 3) dims);
                     k_metricHeader := Val
                       {| k_metricHeaderEntries := Val entries1 |} |};
                k_data := k_data report;
                k_nextPageToken := k_nextPageToken report |} :: others) |}.
Proof.
  unfold del_ga. intros H.
  destruct (k_reports response) as [| |[|report others]] eqn:Hreports;
    simpl in H; try discriminate.
  destruct (k_columnHeader report) as [| |column_header] eqn:Hch;
    simpl in H; try discriminate.
  destruct (k_metricHeader column_header) as [| |metric_header] eqn:Hmh;
    simpl in H; try discriminate.
  destruct (k_metricHeaderEntries metric_header) as [| |entries] eqn:Hentries;
    simpl in H; try discriminate.
  all: destruct (k_dimensions column_header) as [| |dims] eqn:Hdims;
    simpl in H; try discriminate.
  destruct (collect strip_ga entries) as [entries1|] eqn:Hcollect;
    simpl in H; try discriminate.
  injection H as <-. by eexists _, _, _, _, _, _, _.
Qed.

Lemma prefix_cons (x y : Ascii.ascii) (s1 s2 : string) :
  String.prefix (String x s1) (String y s2)
  = if Ascii.ascii_dec x y then String.prefix s1 s2 else false.
Proof. reflexivity. Qed.

Lemma prefix_nil (s : string) : String.prefix "" s = true.
Proof. by destruct s. Qed.

Lemma eqb_cons (x y : Ascii.ascii) (s1 s2 : string) :
  String.eqb (String x s1) (String y s2)
  = if Ascii.ascii_dec x y then String.eqb s1 s2 else false.
Proof.
  simpl. destruct (Ascii.ascii_dec x y) as [->|Hne].
  - by rewrite Ascii.eqb_refl.
  - by destruct (Ascii.eqb_spec x y).
Qed.

Lemma append_cons (c : Ascii.ascii) (s t : string) :
  String.append (String c s) t = String c (String.append s t).
Proof. reflexivity. Qed.

Lemma append_assoc (s t u : string) :
  String.append (String.append s t) u = String.append s (String.append t u).
Proof.
  induction s as [|c s IH]; [done|]. rewrite !append_cons. by rewrite IH.
Qed.

Lemma take_drop_bytes (n : nat) (s : string) :
  String.append (take_bytes n s) (drop_bytes n s) = s.
Proof.
  revert s. induction n as [|n IH]; intros [|c s]; try done.
  cbn [take_bytes drop_bytes]. rewrite append_cons. by rewrite IH.
Qed.

(** The two slices at a position make up the string. *)
Lemma slice_to_from (n : nat) (s : string) :
  String.append (slice_to n s) (slice_from n s) = s.
Proof.
  revert s. induction n as [|n IH]; intros [|c s]; try done.
  cbn [slice_to slice_from]. rewrite append_cons, append_assoc, IH.
  by rewrite take_drop_bytes.
Qed.

(** A name that begins with ga: is these three one-byte characters and a
    rest. *)
Lemma prefix_ga_inv (name : string) :
  String.prefix "ga:" name = true →
  ∃ rest, name = String "g" (String "a" (String ":" rest)).
Proof.
  destruct name as [|a [|b [|c name]]]; try done; rewrite !prefix_cons.
  all: rewrite ?prefix_nil; cbn [String.prefix].
  all: repeat match goal with
         | |- context [Ascii.ascii_dec ?x ?y] => destruct (Ascii.ascii_dec x y)
         end; try done.
  subst. eauto.
Qed.

Lemma prefix_ga_append (rest : string) :
  String.prefix "ga:" (String "g" (String "a" (String ":" rest))) = true.
Proof.
  rewrite !prefix_cons, prefix_nil.
  repeat match goal with
         | |- context [Ascii.ascii_dec ?x ?y] => destruct (Ascii.ascii_dec x y)
         end; done.
Qed.

(** [name[:3] == 'ga:'] says that [name] begins with ga:. *)
Lemma eqb_slice_prefix (name : string) :
  String.eqb (slice_to 3 name) "ga:" = String.prefix "ga:" name.
Proof.
  destruct (String.prefix "ga:" name) eqn:Hprefix.
  - by apply prefix_ga_inv in Hprefix as [rest ->].
  - destruct (String.eqb_spec (slice_to 3 name) "ga:") as [Hslice|]; [|done].
    pose proof (slice_to_from 3 name) as Hname. rewrite Hslice in Hname.
    rewrite <- Hname in Hprefix.
    change (String.append "ga:" (slice_from 3 name))
      with (String "g" (String "a" (String ":" (slice_from 3 name))))
      in Hprefix.
    by rewrite prefix_ga_append in Hprefix.
Qed.

Lemma prefix_ga_ga (name : string) :
  String.prefix "ga:ga:" name
  = String.prefix "ga:" name && String.prefix "ga:" (slice_from 3 name).
Proof.
  destruct (String.prefix "ga:" name) eqn:Hprefix; cbn [andb].
  - apply prefix_ga_inv in Hprefix as [rest ->].
    change (slice_from 3 _) with rest. rewrite 3!prefix_cons.
    repeat match goal with
           | |- context [Ascii.ascii_dec ?x ?y] => destruct (Ascii.ascii_dec x y)
           end; done.
  - destruct (String.prefix "ga:ga:" name) eqn:Hlong; [|done].
    rewrite <- Hprefix. clear Hprefix. revert Hlong.
    destruct name as [|a [|b [|c name]]]; try done; rewrite !prefix_cons.
    all: rewrite ?prefix_nil; cbn [String.prefix].
    all: repeat match goal with
           | |- context [Ascii.ascii_dec ?x ?y] => destruct (Ascii.ascii_dec x y)
           end; done.
Qed.

(** An entry as [strip_ga] leaves it: the name without one leading ga:. *)
Lemma strip_ga_Ok (header header1 : MetricHeaderEntry) :
  strip_ga header = Ok header1 →
  ∃ name,
    k_name header = Val name
    ∧ if String.prefix "ga:" name
      then header1 = {| k_name := Val (slice_from 3 name);
                        k_type := k_type header |}
      else header1 = header.
Proof.
  unfold strip_ga.
  destruct (k_name header) as [| |name]; cbn [bind getitem subscriptable];
    try done.
  rewrite eqb_slice_prefix. intros H. exists name. split; [done|].
  destruct (String.prefix "ga:" name); congruence.
Qed.

Lemma strip_ga_unprefixed (header : MetricHeaderEntry) (name : string) :
  k_name header = Val name → String.prefix "ga:" name = false →
  strip_ga header = Ok header.
Proof.
  intros Hname Hprefix. unfold strip_ga. rewrite Hname.
  cbn [bind getitem subscriptable].
  by rewrite eqb_slice_prefix, Hprefix.
Qed.

Lemma collect_unprefixed (entries : list MetricHeaderEntry) :
  Forall (λ header, ∃ name, k_name header = Val name
                            ∧ String.prefix "ga:" name = false) entries →
  collect strip_ga entries = Ok entries.
Proof.
  induction 1 as [|header entries (name & Hname & Hprefix) _ IH]; simpl; [done|].
  rewrite (strip_ga_unprefixed header name Hname Hprefix). simpl.
  by rewrite IH.
Qed.

Lemma collect_Forall2 {A B} (body : A → result B) (l : list A) (bs : list B) :
  collect body l = Ok bs → Forall2 (λ a b, body a = Ok b) l bs.
Proof.
  revert bs. induction l as [|a l IH]; intros bs; simpl.
  - intros [= <-]. constructor.
  - intros H. apply bind_Ok in H as (b & Hb & H).
    apply bind_Ok in H as (bs' & Hbs & [= <-]). constructor; [done|].
    by apply IH.
Qed.

(** After one pass no name begins with ga:, unless one began with
    ga:ga:. *)
Lemma strip_ga_unprefixes (entries entries1 : list MetricHeaderEntry) :
  Forall2 (λ header header1, strip_ga header = Ok header1) entries entries1 →
  (∀ header name,
     header ∈ entries →
     k_name header = Val name → String.prefix "ga:ga:" name = false) →
  Forall (λ header, ∃ name, k_name header = Val name
                            ∧ String.prefix "ga:" name = false) entries1.
Proof.
  induction 1 as [|header header1 entries entries1 Hstrip _ IH];
    intros Hsingle; constructor.
  - apply strip_ga_Ok in Hstrip as (name & Hname & Hheader1).
    pose proof (Hsingle header name (list_elem_of_here _ _) Hname) as Hname2.
    rewrite prefix_ga_ga in Hname2.
    destruct (String.prefix "ga:" name) eqn:Hprefix; subst header1.
    + exists (slice_from 3 name). by split.
    + by exists name.
  - apply IH. intros header' name Hin. apply Hsingle. by right.
Qed.

(** C10. A successful [del_ga] returns the response with the first report
    rewritten in its column header only: the row data and the continuation
    token of the first report and all the other reports are the ones it
    was given, and the metric header entries keep their number, order and
    type. *)
Theorem del_ga_frame (response response1 : Response) :
  del_ga response = Ok response1 →
  ∃ report report1 others,
    k_reports response = Val (report :: others)
    ∧ k_reports response1 = Val (report1 :: others)
    ∧ k_data report1 = k_data report
    ∧ k_nextPageToken report1 = k_nextPageToken report
    ∧ Forall2 (λ header header1, k_type header1 = k_type header)
        (report_metric_headers report) (report_metric_headers report1).
Proof.
  intros H.
  apply del_ga_Ok in H
    as (report & others & ch & mh & entries & dims & entries1
        & Hreports & Hch & Hmh & Hentries & Hdims & Hcollect & ->).
  eexists report, _, others. repeat split; try done.
  unfold report_metric_headers, header_entries.
  rewrite Hch, Hmh, Hentries. simpl.
  apply collect_Forall2 in Hcollect.
  eapply Forall2_impl; [exact Hcollect|]. simpl.
  intros header header1 (name & _ & Hstrip)%strip_ga_Ok.
  destruct (String.prefix "ga:" name); by subst.
Qed.

(** C10 on a response with two reports. *)
Lemma del_ga_frame_witness :
  ∃ response1,
    del_ga prefixed_page = Ok response1
    ∧ ∃ report report1 others,
        k_reports prefixed_page = Val (report :: others)
        ∧ k_reports response1 = Val (report1 :: others)
        ∧ k_data report1 = k_data report
        ∧ k_nextPageToken report1 = k_nextPageToken report
        ∧ Forall2 (λ header header1, k_type header1 = k_type header)
            (report_metric_headers report) (report_metric_headers report1).
Proof.
  eexists. split; [reflexivity|].
  apply (del_ga_frame prefixed_page). reflexivity.
Defined.

(** C5, counterexample. A metric header named ga:ga:sessions still begins
    with ga: after one [del_ga] and loses it with the second: the headers
    after two applications are not those after one. *)
Lemma del_ga_twice_differs :
  ∃ once twice,
    del_ga doubly_prefixed_page = Ok once
    ∧ del_ga once = Ok twice
    ∧ first_metric_headers once = [entry "ga:sessions"]
    ∧ first_metric_headers twice = [entry "sessions"]
    ∧ first_metric_headers twice ≠ first_metric_headers once.
Proof. eexists _, _. repeat split; try reflexivity. discriminate. Qed.

(** C5, amended. [del_ga] leaves unchanged every metric header entry whose
    name does not begin with ga: and removes one leading ga: from the name
    of every other; when no metric header name begins with ga:ga:, a second
    [del_ga] succeeds and leaves the metric header entries as the first
    left them. *)
Theorem del_ga_metric_names (response response1 : Response) :
  del_ga response = Ok response1 →
  Forall2
    (λ header header1,
       ∃ name,
         k_name header = Val name
         ∧ if String.prefix "ga:" name
           then header1 = {| k_name := Val (slice_from 3 name);
                             k_type := k_type header |}
           else header1 = header)
    (first_metric_headers response) (first_metric_headers response1)
  ∧ ((∀ header name,
        header ∈ first_metric_headers response →
        k_name header = Val name → String.prefix "ga:ga:" name = false) →
     ∃ response2,
       del_ga response1 = Ok response2
       ∧ first_metric_headers response2 = first_metric_headers response1).
Proof.
  intros H.
  apply del_ga_Ok in H
    as (report & others & ch & mh & entries & dims & entries1
        & Hreports & Hch & Hmh & Hentries & Hdims & Hcollect & ->).
  assert (first_metric_headers response = entries) as ->.
  { unfold first_metric_headers, report_metric_headers, header_entries.
    by rewrite Hreports, Hch, Hmh, Hentries. }
  change (first_metric_headers _) with entries1 at 1.
  pose proof (collect_Forall2 _ _ _ Hcollect) as Hstrip.
  split.
  - eapply Forall2_impl; [exact Hstrip|]. simpl.
    intros header header1. apply strip_ga_Ok.
  - intros Hsingle.
    assert (collect strip_ga entries1 = Ok entries1) as Hagain.
    { by apply collect_unprefixed, (strip_ga_unprefixes entries). }
    eexists. split.
    + unfold del_ga. simpl. rewrite Hagain. simpl. reflexivity.
    + reflexivity.
Qed.

(** ** Pagination *)

Section PaginatorFacts.

Context {Dimensions Metrics Filters World : Type}.
Variable execute :
  ReportRequest Dimensions Metrics Filters → World → result Response * World.
Variable profile_id : string.
Variable dims : Dimensions.
Variable mets : Metrics.
Variable filters : Filters.
Variable date_from date_to : string.
Variable page_size : Z.

(** The functions of the pagination at the query of this section. *)
Local Abbreviation request :=
  (report_request profile_id dims mets filters date_from date_to page_size).
Local Abbreviation next_pages :=
  (while_next_page execute profile_id dims mets filters date_from date_to
     page_size).
Local Abbreviation full_report :=
  (get_full_report execute profile_id dims mets filters date_from date_to
     page_size).
Local Abbreviation serving :=
  (serves execute profile_id dims mets filters date_from date_to page_size).
Local Abbreviation failing :=
  (fails execute profile_id dims mets filters date_from date_to page_size).
Local Abbreviation chain :=
  (chained profile_id dims mets filters date_from date_to page_size).

Implicit Types (token : option string) (world : World) (page : Response).
Implicit Types (pages : list Response) (rows : list ReportRow) (fuel : nat).
Implicit Types (calls events : list (Event (Dimensions:=Dimensions)
                                       (Metrics:=Metrics) (Filters:=Filters))).

(** Without a token the loop is over. *)
Lemma next_pages_done fuel (rows0 : option (list ReportRow))
    (s : State (Dimensions:=Dimensions) (Metrics:=Metrics) (Filters:=Filters)) :
  next_pages fuel rows0 None s = Some (Ok rows0, s).
Proof. by destruct fuel. Qed.

(** One iteration that fetches a page with rows. *)
Lemma next_pages_step fuel rows next world calls page world1 token1 more :
  execute (request (Some next)) world = (Ok page, world1) →
  first_token page = Ok token1 →
  first_rows page = Ok (Some more) →
  next_pages (S fuel) (Some rows) (Some next) (world, calls)
  = next_pages fuel (Some (rows ++ more)) token1
      (world1, calls ++ [(request (Some next), Ok page)]).
Proof.
  intros Hexecute Htoken Hrows. simpl. unfold fbind at 1, get_report.
  simpl. rewrite Hexecute. unfold fbind at 1, fret at 1. rewrite Htoken.
  unfold fbind at 1, fret at 1, rows_extend. simpl. rewrite Hrows. done.
Qed.

(** One iteration whose fetch fails. *)
Lemma next_pages_raise fuel (rows0 : option (list ReportRow)) next world calls
    e world1 :
  execute (request (Some next)) world = (Raise e, world1) →
  next_pages (S fuel) rows0 (Some next) (world, calls)
  = Some (Raise e, (world1, calls ++ [(request (Some next), Raise e)])).
Proof.
  intros Hexecute. simpl. unfold fbind at 1, get_report.
  simpl. by rewrite Hexecute.
Qed.

Lemma next_pages_serving token world pages world' :
  serving token world pages world' →
  ∀ next rowss fuel rows calls,
    token = Some next →
    Forall2 (λ page rows, first_rows page = Ok (Some rows)) pages rowss →
    (length pages ≤ fuel)%nat →
    ∃ events,
      next_pages fuel (Some rows) (Some next) (world, calls)
      = Some (Ok (Some (rows ++ concat rowss)), (world', calls ++ events))
      ∧ map snd events = map Ok pages.
Proof.
  induction 1 as [token world page world' Hexecute Htoken
                 |token world page world1 next1 pages world' Hexecute Htoken
                    _ IH];
    intros next rowss fuel rows calls -> Hrows Hfuel.
  - apply Forall2_cons_inv_l in Hrows as (more & rowss' & Hmore & Hnil & ->).
    apply Forall2_nil_inv_l in Hnil as ->.
    destruct fuel as [|fuel]; [simpl in Hfuel; lia|].
    rewrite (next_pages_step _ _ _ _ _ _ _ _ _ Hexecute Htoken Hmore).
    exists [(request (Some next), Ok page)].
    rewrite next_pages_done. simpl. by rewrite app_nil_r.
  - apply Forall2_cons_inv_l in Hrows as (more & rowss' & Hmore & Hrows & ->).
    destruct fuel as [|fuel]; [simpl in Hfuel; lia|]. simpl in Hfuel.
    rewrite (next_pages_step _ _ _ _ _ _ _ _ _ Hexecute Htoken Hmore).
    destruct (IH next1 rowss' fuel (rows ++ more)
                (calls ++ [(request (Some next), Ok page)]) eq_refl Hrows
                ltac:(lia)) as (events & -> & Hevents).
    exists ((request (Some next), Ok page) :: events). simpl.
    rewrite <- !app_assoc, Hevents. done.
Qed.

Lemma next_pages_failing token world pages e world' :
  failing token world pages e world' →
  ∀ next rowss fuel rows calls,
    token = Some next →
    Forall2 (λ page rows, first_rows page = Ok (Some rows)) pages rowss →
    (length pages < fuel)%nat →
    ∃ events,
      next_pages fuel (Some rows) (Some next) (world, calls)
      = Some (Raise e, (world', calls ++ events))
      ∧ map snd events = map Ok pages ++ [Raise e].
Proof.
  induction 1 as [token world e world' Hexecute
                 |token world page world1 next1 pages e world' Hexecute Htoken
                    _ IH];
    intros next rowss fuel rows calls -> Hrows Hfuel.
  - destruct fuel as [|fuel]; [simpl in Hfuel; lia|].
    rewrite (next_pages_raise _ _ _ _ _ _ _ Hexecute).
    by exists [(request (Some next), Raise e)].
  - apply Forall2_cons_inv_l in Hrows as (more & rowss' & Hmore & Hrows & ->).
    destruct fuel as [|fuel]; [simpl in Hfuel; lia|]. simpl in Hfuel.
    rewrite (next_pages_step _ _ _ _ _ _ _ _ _ Hexecute Htoken Hmore).
    destruct (IH next1 rowss' fuel (rows ++ more)
                (calls ++ [(request (Some next), Ok page)]) eq_refl Hrows
                ltac:(lia)) as (events & -> & Hevents).
    exists ((request (Some next), Ok page) :: events). simpl.
    rewrite <- !app_assoc, Hevents. done.
Qed.

(** The final assignment finds the report and the data that the first
    read of the rows found, and changes the rows alone. *)
Lemma set_first_rows_Ok page (rows0 new : option (list ReportRow)) :
  first_rows page = Ok rows0 →
  ∃ merged,
    set_first_rows page new = Ok merged
    ∧ first_rows merged = Ok new
    ∧ first_token merged = first_token page
    ∧ first_column_header merged = first_column_header page.
Proof.
  unfold first_rows, set_first_rows, first_token, first_column_header.
  destruct (k_reports page) as [| |[|report others]]; simpl; try done.
  destruct (k_data report) as [| |data]; simpl; try done.
  intros _. eexists. split; [done|]. simpl. by destruct new.
Qed.

(** The first fetch, the two reads of the page, the loop and the final
    assignment. *)
Lemma full_report_first fuel token world calls page world1
    (rows0 : option (list ReportRow)) token1 :
  execute (request token) world = (Ok page, world1) →
  first_rows page = Ok rows0 →
  first_token page = Ok token1 →
  full_report fuel token (world, calls)
  = match next_pages fuel rows0 token1
            (world1, calls ++ [(request token, Ok page)]) with
    | Some (Ok rows, s) => Some (set_first_rows page rows, s)
    | Some (Raise e, s) => Some (Raise e, s)
    | None => None
    end.
Proof.
  intros Hexecute Hrows Htoken. unfold get_full_report.
  unfold fbind at 1, get_report. simpl. rewrite Hexecute.
  unfold fbind at 1, fret at 1. rewrite Hrows.
  unfold fbind at 1, fret at 1. rewrite Htoken.
  unfold fbind at 1.
  destruct (next_pages _ _ _ _) as [[[rows|e] s]|]; [|done|done].
  unfold fbind, fret. by destruct (set_first_rows page rows).
Qed.

Lemma full_report_raise fuel token world calls e world1 :
  execute (request token) world = (Raise e, world1) →
  full_report fuel token (world, calls)
  = Some (Raise e, (world1, calls ++ [(request token, Raise e)])).
Proof.
  intros Hexecute. unfold get_full_report.
  unfold fbind at 1, get_report. simpl. by rewrite Hexecute.
Qed.

(** Against a provider that serves [pages], the extraction returns the
    first page with its rows replaced by the rows of all the pages, and
    has made one call per page. *)
Lemma full_report_serving token world page0 pages world' rowss fuel calls :
  serving token world (page0 :: pages) world' →
  Forall2 (λ page rows, first_rows page = Ok (Some rows)) (page0 :: pages)
    rowss →
  (length (page0 :: pages) ≤ S fuel)%nat →
  ∃ merged events,
    full_report fuel token (world, calls)
    = Some (Ok merged, (world', calls ++ events))
    ∧ set_first_rows page0 (Some (concat rowss)) = Ok merged
    ∧ map snd events = map Ok (page0 :: pages).
Proof.
  intros Hserving Hrows Hfuel. simpl in Hfuel.
  apply Forall2_cons_inv_l in Hrows as (rows0 & rowss' & Hrows0 & Hrows & ->).
  destruct (set_first_rows_Ok page0 _ (Some (concat (rows0 :: rowss'))) Hrows0)
    as (merged & Hmerged & _).
  exists merged.
  inversion Hserving
    as [? ? ? ? Hexecute Htoken|? ? ? world1 next ? ? Hexecute Htoken Hrest];
    subst.
  - apply Forall2_nil_inv_l in Hrows as ->.
    exists [(request token, Ok page0)].
    rewrite (full_report_first _ _ _ _ _ _ _ _ Hexecute Hrows0 Htoken).
    rewrite next_pages_done. simpl in *. rewrite app_nil_r in *.
    by rewrite Hmerged.
  - destruct (next_pages_serving _ _ _ _ Hrest next rowss' fuel rows0
                (calls ++ [(request token, Ok page0)]) eq_refl Hrows
                ltac:(lia)) as (events & Hloop & Hevents).
    exists ((request token, Ok page0) :: events).
    rewrite (full_report_first _ _ _ _ _ _ _ _ Hexecute Hrows0 Htoken).
    rewrite Hloop. simpl in *. rewrite <- app_assoc, Hevents. by rewrite Hmerged.
Qed.

(** C1. Against a provider that serves N pages, each with its rows and
    each but the last with a continuation token, [get_full_report] returns,
    given fuel for the N - 1 iterations, a response whose rows are the rows
    of the N pages concatenated in page order, after exactly N calls, which
    are the fetches of these pages in order; with a single page, whose
    token is absent, exactly one. *)
Theorem get_full_report_complete token world pages world' rowss fuel calls :
  serving token world pages world' →
  Forall2 (λ page rows, first_rows page = Ok (Some rows)) pages rowss →
  (length pages ≤ S fuel)%nat →
  ∃ response events,
    full_report fuel token (world, calls)
    = Some (Ok response, (world', calls ++ events))
    ∧ first_rows response = Ok (Some (concat rowss))
    ∧ length events = length pages
    ∧ map snd events = map Ok pages.
Proof.
  intros Hserving Hrows Hfuel.
  destruct pages as [|page0 pages]; [inversion Hserving|].
  destruct (full_report_serving _ _ _ _ _ _ _ calls Hserving Hrows Hfuel)
    as (merged & events & Hrun & Hmerged & Hevents).
  exists merged, events. split; [done|].
  apply Forall2_cons_inv_l in Hrows as (rows0 & rowss' & Hrows0 & _ & ->).
  destruct (set_first_rows_Ok page0 _ (Some (concat (rows0 :: rowss'))) Hrows0)
    as (merged' & Hmerged' & Hfirst & _).
  rewrite Hmerged in Hmerged'. injection Hmerged' as <-.
  split; [done|]. split; [|done].
  apply (f_equal length) in Hevents. by rewrite !length_map in Hevents.
Qed.

(** C4, amended. The response [get_full_report] returns carries the column
    header of the first fetched page, whatever the headers of the later
    pages, together with the concatenated rows. *)
Theorem merged_headers_from_first_page token world first_page pages world'
    rowss fuel calls :
  serving token world (first_page :: pages) world' →
  Forall2 (λ page rows, first_rows page = Ok (Some rows)) (first_page :: pages)
    rowss →
  (length (first_page :: pages) ≤ S fuel)%nat →
  ∃ response final,
    full_report fuel token (world, calls) = Some (Ok response, final)
    ∧ first_column_header response = first_column_header first_page
    ∧ first_rows response = Ok (Some (concat rowss)).
Proof.
  intros Hserving Hrows Hfuel.
  destruct (full_report_serving _ _ _ _ _ _ _ calls Hserving Hrows Hfuel)
    as (merged & events & Hrun & Hmerged & _).
  exists merged, (world', calls ++ events). split; [done|].
  apply Forall2_cons_inv_l in Hrows as (rows0 & rowss' & Hrows0 & _ & ->).
  destruct (set_first_rows_Ok first_page _ (Some (concat (rows0 :: rowss')))
              Hrows0) as (merged' & Hmerged' & Hfirst & _ & Hheader).
  rewrite Hmerged in Hmerged'. by injection Hmerged' as <-.
Qed.

(** C7. Against a provider that serves pages with their rows and tokens
    and then fails, [get_full_report] raises the exception of the failed
    fetch and returns no response; the failed call is the last one made,
    one more than the pages fetched before it. *)
Theorem fetch_error_propagates token world pages e world' rowss fuel calls :
  failing token world pages e world' →
  Forall2 (λ page rows, first_rows page = Ok (Some rows)) pages rowss →
  (length pages ≤ fuel)%nat →
  ∃ events,
    full_report fuel token (world, calls)
    = Some (Raise e, (world', calls ++ events))
    ∧ length events = S (length pages)
    ∧ map snd events = map Ok pages ++ [Raise e].
Proof.
  intros Hfailing Hrows Hfuel.
  assert (∀ events,
            map snd events = map Ok pages ++ [Raise e] →
            length events = S (length pages)) as Hcount.
  { intros events Hevents. apply (f_equal length) in Hevents.
    rewrite length_app, !length_map in Hevents. simpl in Hevents.
    etransitivity; [exact Hevents|]. lia. }
  inversion Hfailing
    as [? ? ? ? Hexecute
       |? ? page0 world1 next pages' ? ? Hexecute Htoken Hrest]; subst.
  - exists [(request token, Raise e)].
    rewrite (full_report_raise _ _ _ _ _ _ Hexecute). auto.
  - apply Forall2_cons_inv_l in Hrows as (rows0 & rowss' & Hrows0 & Hrows & ->).
    simpl in Hfuel.
    destruct (next_pages_failing _ _ _ _ _ Hrest next rowss' fuel rows0
                (calls ++ [(request token, Ok page0)]) eq_refl Hrows
                ltac:(lia)) as (events & Hloop & Hevents).
    exists ((request token, Ok page0) :: events).
    rewrite (full_report_first _ _ _ _ _ _ _ _ Hexecute Hrows0 Htoken).
    rewrite Hloop, <- app_assoc. simpl.
    assert (map snd ((request token, Ok page0) :: events)
            = map Ok (page0 :: pages') ++ [Raise e]) as Hall.
    { simpl. by rewrite Hevents. }
    split; [done|]. split; [|done]. exact (Hcount _ Hall).
Qed.

(** The calls of a loop that ran to its end. *)
Lemma next_pages_chain fuel :
  ∀ (rows0 : option (list ReportRow)) token world calls
    (rows1 : option (list ReportRow)) world' calls',
    next_pages fuel rows0 token (world, calls)
    = Some (Ok rows1, (world', calls')) →
    ∃ events, calls' = calls ++ events ∧ chain token events.
Proof.
  induction fuel as [|fuel IH];
    intros rows0 [next|] world calls rows1 world' calls' Hrun.
  - discriminate.
  - injection Hrun as _ <- <-. exists []. split; [by rewrite app_nil_r|].
    constructor.
  - simpl in Hrun. unfold fbind at 1, get_report in Hrun. simpl in Hrun.
    destruct (execute _ world) as [[page|e] world1]; [|discriminate].
    unfold fbind at 1, fret at 1 in Hrun.
    destruct (first_token page) as [token1|e] eqn:Htoken; [|discriminate].
    unfold fbind at 1, fret at 1 in Hrun.
    destruct (rows_extend rows0 page) as [rows2|e]; [|discriminate].
    apply IH in Hrun as (events & -> & Hchain).
    exists ((request (Some next), Ok page) :: events).
    split; [by rewrite <- app_assoc|]. by econstructor.
  - injection Hrun as _ <- <-. exists []. split; [by rewrite app_nil_r|].
    constructor.
Qed.

Lemma full_report_chain fuel token world calls response world' calls' :
  full_report fuel token (world, calls) = Some (Ok response, (world', calls')) →
  ∃ page token1 events,
    first_token page = Ok token1
    ∧ chain token1 events
    ∧ calls' = calls ++ (request token, Ok page) :: events.
Proof.
  unfold get_full_report. intros Hrun.
  unfold fbind at 1, get_report in Hrun. simpl in Hrun.
  destruct (execute _ world) as [[page|e] world1]; [|discriminate].
  unfold fbind at 1, fret at 1 in Hrun.
  destruct (first_rows page) as [rows0|e]; [|discriminate].
  unfold fbind at 1, fret at 1 in Hrun.
  destruct (first_token page) as [token1|e] eqn:Htoken; [|discriminate].
  unfold fbind at 1 in Hrun.
  destruct (next_pages _ _ _ _) as [[[rows1|e] [world2 calls2]]|] eqn:Hloop;
    [|discriminate|discriminate].
  apply next_pages_chain in Hloop as (events & -> & Hchain).
  unfold fbind, fret in Hrun.
  destruct (set_first_rows page rows1); [|discriminate].
  injection Hrun as _ _ <-.
  exists page, token1, events. by rewrite <- app_assoc.
Qed.

(** In a chain of calls, each is followed by another exactly when its
    page carries a token, and the next call is made with that token. *)
Lemma chain_lookup token1 events :
  chain token1 events →
  ∀ request0 page,
    first_token page = Ok token1 →
    ∀ i request1 outcome,
      ((request0, Ok page) :: events) !! i = Some (request1, outcome) →
      ∃ page1 token2,
        outcome = Ok page1
        ∧ first_token page1 = Ok token2
        ∧ (is_Some (((request0, Ok page) :: events) !! S i) ↔ is_Some token2)
        ∧ ∀ event,
            ((request0, Ok page) :: events) !! S i = Some event →
            event.1 = request token2.
Proof.
  induction 1 as [|next page' token2 events Htoken2 _ IH];
    intros request0 page Htoken [|i] request1 outcome Hi; simpl in Hi.
  - injection Hi as <- <-. exists page, None. simpl.
    repeat split; try done; by intros [? ?].
  - done.
  - injection Hi as <- <-. exists page, (Some next). simpl.
    repeat split; try done; eauto. by intros event [= <-].
  - exact (IH _ page' Htoken2 i request1 outcome Hi).
Qed.

(** In a run of [get_full_report] that returns, every call is followed by
    another exactly when the continuation token of the page it fetched is
    not [None], and the next call is made with that token and the same
    query. *)
Lemma returning_run_follows_tokens fuel token world calls response world'
    calls' :
  full_report fuel token (world, calls) = Some (Ok response, (world', calls')) →
  ∃ events,
    calls' = calls ++ events
    ∧ ∀ i request1 outcome,
        events !! i = Some (request1, outcome) →
        ∃ page token1,
          outcome = Ok page
          ∧ first_token page = Ok token1
          ∧ (is_Some (events !! S i) ↔ token1 ≠ None)
          ∧ ∀ event, events !! S i = Some event → event.1 = request token1.
Proof.
  intros (page & token1 & events & Htoken & Hchain & ->)%full_report_chain.
  eexists. split; [done|]. intros i request1 outcome Hi.
  destruct (chain_lookup _ _ Hchain _ _ Htoken _ _ _ Hi)
    as (page1 & token2 & -> & Htoken2 & Hnext & Hrequest).
  exists page1, token2. repeat split; try done.
  - intros Hsome. apply Hnext in Hsome as [? ->]. done.
  - intros Hsome. apply Hnext. by destruct token2.
Qed.

(** C3, amended. Against a provider that serves pages with their rows,
    each but the last with a continuation token of whatever content, the
    empty string included, [get_full_report] returns, given fuel for the
    iterations, after fetching every page: each call is followed by another
    exactly when the continuation token of the page it fetched is not
    [None], the next call is made with that token and the same query, and
    no call follows the page whose token is [None]. *)
Theorem fetch_again_iff_token token world pages world' rowss fuel calls :
  serving token world pages world' →
  Forall2 (λ page rows, first_rows page = Ok (Some rows)) pages rowss →
  (length pages ≤ S fuel)%nat →
  ∃ response events,
    full_report fuel token (world, calls)
    = Some (Ok response, (world', calls ++ events))
    ∧ map snd events = map Ok pages
    ∧ ∀ i request1 outcome,
        events !! i = Some (request1, outcome) →
        ∃ page token1,
          outcome = Ok page
          ∧ first_token page = Ok token1
          ∧ (is_Some (events !! S i) ↔ token1 ≠ None)
          ∧ ∀ event, events !! S i = Some event → event.1 = request token1.
Proof.
  intros Hserving Hrows Hfuel.
  destruct pages as [|page0 pages]; [inversion Hserving|].
  destruct (full_report_serving _ _ _ _ _ _ _ calls Hserving Hrows Hfuel)
    as (merged & events & Hrun & _ & Hevents).
  exists merged, events. split; [done|]. split; [done|].
  destruct (returning_run_follows_tokens _ _ _ _ _ _ _ Hrun)
    as (events' & Hcalls & Hnext).
  apply app_inv_head in Hcalls. by subst events'.
Qed.

End PaginatorFacts.

(** ** The simulated provider *)

(** C1 on the script of three pages: four rows after three calls. *)
Lemma get_full_report_complete_witness :
  ∃ response events,
    run_scripted three_pages 2 = Some (Ok response, ([], [] ++ events))
    ∧ first_rows response
      = Ok (Some (concat [ [row ["20200901"] [["1"]]];
                           [row ["20200902"] [["2"]]; row ["20200903"] [["3"]]];
                           [row ["20200904"] [["4"]]] ]))
    ∧ length events = length [page1; page2; page3]
    ∧ map snd events = map Ok [page1; page2; page3].
Proof.
  apply (get_full_report_complete scripted "view" tt tt tt "2020-09-01"
           "2020-09-01" 1000 None three_pages [page1; page2; page3] []).
  - eapply serves_more; [reflexivity|reflexivity|].
    eapply serves_more; [reflexivity|reflexivity|].
    eapply serves_last; reflexivity.
  - repeat constructor.
  - simpl. lia.
Defined.

(** C3, counterexample. The first page carries the empty string as its
    continuation token, and pagination goes on: a second call is made,
    with the empty string as its page token. *)
Lemma empty_token_fetches_again :
  ∃ response events,
    first_token empty_token_page = Ok (Some "")
    ∧ run_scripted empty_token_script 1 = Some (Ok response, ([], events))
    ∧ length events = 2
    ∧ map (λ event, pageToken event.1) events = [None; Some ""].
Proof. eexists _, _. repeat split; reflexivity. Qed.

(** C3, amended, on the script whose first page has the empty token: two
    calls, the second with the empty string as its page token. *)
Lemma fetch_again_iff_token_witness :
  ∃ response events,
    run_scripted empty_token_script 1
    = Some (Ok response, ([], [] ++ events))
    ∧ map snd events = map Ok [empty_token_page; page3]
    ∧ ∀ i request1 outcome,
        events !! i = Some (request1, outcome) →
        ∃ page token1,
          outcome = Ok page
          ∧ first_token page = Ok token1
          ∧ (is_Some (events !! S i) ↔ token1 ≠ None)
          ∧ ∀ event,
              events !! S i = Some event →
              event.1
              = report_request "view" tt tt tt "2020-09-01" "2020-09-01"
                  1000 token1.
Proof.
  apply (fetch_again_iff_token scripted "view" tt tt tt "2020-09-01"
           "2020-09-01" 1000 None empty_token_script
           [empty_token_page; page3] []
           [ [row ["20200901"] [["1"]]]; [row ["20200904"] [["4"]]] ] 1 []).
  - eapply serves_more; [reflexivity|reflexivity|].
    eapply serves_last; reflexivity.
  - repeat constructor.
  - simpl. lia.
Defined.

(** C4, counterexample. The second and last page has the headers
    ga:country and ga:users; the merged response has those of the first
    page, ga:date and ga:sessions. *)
Lemma merged_headers_not_from_last_page :
  ∃ response final,
    run_scripted two_headers_script 1 = Some (Ok response, final)
    ∧ first_column_header response
      = Some (Val (header ["ga:date"] ["ga:sessions"]))
    ∧ first_column_header country_page
      = Some (Val (header ["ga:country"] ["ga:users"]))
    ∧ first_column_header response ≠ first_column_header country_page.
Proof. eexists _, _. repeat split; try reflexivity. discriminate. Qed.

(** C4, amended, on the script of two pages with different headers. *)
Lemma merged_headers_from_first_page_witness :
  ∃ response final,
    run_scripted two_headers_script 1 = Some (Ok response, final)
    ∧ first_column_header response = first_column_header page1
    ∧ first_rows response
      = Ok (Some (concat [ [row ["20200901"] [["1"]]]; [row ["FR"] [["7"]]] ])).
Proof.
  apply (merged_headers_from_first_page scripted "view" tt tt tt "2020-09-01"
           "2020-09-01" 1000 None two_headers_script page1 [country_page] []).
  - eapply serves_more; [reflexivity|reflexivity|].
    eapply serves_last; reflexivity.
  - repeat constructor.
  - simpl. lia.
Defined.

(** C7 on the script that fails on page 2 of 3: two calls, and the third
    answer is still in the script. *)
Lemma fetch_error_propagates_witness :
  ∃ events,
    run_scripted failing_script 1
    = Some (Raise (ApiError 403), ([Ok page3], [] ++ events))
    ∧ length events = S (length [page1])
    ∧ map snd events = map Ok [page1] ++ [Raise (ApiError 403)].
Proof.
  apply (fetch_error_propagates scripted "view" tt tt tt "2020-09-01"
           "2020-09-01" 1000 None failing_script [page1] (ApiError 403)
           [Ok page3] [ [row ["20200901"] [["1"]]] ]).
  - eapply fails_later; [reflexivity|reflexivity|].
    eapply fails_now; reflexivity.
  - repeat constructor.
  - simpl. lia.
Defined.

(** C5, amended, on the page with the metrics ga:sessions and users. *)
Lemma del_ga_metric_names_witness :
  ∃ response1,
    del_ga prefixed_page = Ok response1
    ∧ first_metric_headers response1 = [entry "sessions"; entry "users"]
    ∧ ∃ response2,
        del_ga response1 = Ok response2
        ∧ first_metric_headers response2 = first_metric_headers response1.
Proof.
  eexists. split; [reflexivity|]. split; [reflexivity|].
  apply (del_ga_metric_names prefixed_page); [reflexivity|].
  intros header name Hin Hname.
  apply list_elem_of_In in Hin. simpl in Hin.
  destruct Hin as [<-|[<-|[]]]; simpl in Hname; by injection Hname as <-.
Defined.

(** The dimension headers lose their first three characters, with or
    without the prefix. *)
Example del_ga_dimension_headers :
  ∃ response1,
    del_ga (page (header ["ga:date"; "date"] []) [] Missing) = Ok response1
    ∧ first_column_header response1 = Some (Val (header ["date"; "e"] [])).
Proof. eexists. split; reflexivity. Qed.

(** * Further properties *)

(** ** The records of a table *)

Lemma setitems_app (df_row : FlatRecord) kvs1 kvs2 :
  setitems (setitems df_row kvs1) kvs2 = setitems df_row (kvs1 ++ kvs2).
Proof. unfold setitems. by rewrite fold_left_app. Qed.

Lemma setitems_record_of (df_row : FlatRecord) kvs :
  setitems df_row kvs = record_of kvs ∪ df_row.
Proof.
  unfold record_of.
  induction kvs as [|[k v] kvs IH] using rev_ind.
  - simpl. by rewrite (left_id_L ∅ (∪)).
  - rewrite setitems_snoc, IH, reverse_snoc. simpl.
    by rewrite insert_union_l.
Qed.

(** The groups of a row that are flattened without an exception assign
    their pairs one group after the other. *)
Lemma for_each_flatten_group (metric_headers : option (list MetricHeaderEntry))
    (groups : list DateRangeValues) :
  ∀ df_row df_row' : FlatRecord,
    for_each (flatten_group metric_headers) groups df_row = Ok df_row' →
    df_row'
    = setitems df_row
        (concat
           (map (λ group : DateRangeValues,
                   map (λ p : MetricHeaderEntry * string,
                          (get (k_name p.1), p.2))
                     (zip (default [] metric_headers)
                        (field_list (k_values group))))
              groups)).
Proof.
  induction groups as [|group groups IH]; intros df_row df_row'; simpl.
  - by intros [= <-].
  - intros H. apply bind_Ok in H as (df_row1 & Hgroup & Hrest).
    apply IH in Hrest as ->. rewrite <- setitems_app. f_equal.
    unfold flatten_group, pyzip in Hgroup.
    destruct metric_headers as [mh|]; simpl in Hgroup; [|discriminate].
    destruct (k_values group) as [| |vs]; simpl in Hgroup; try discriminate.
    by injection Hgroup as <-.
Qed.

(** The record of a row that is flattened without an exception. *)
Lemma flatten_row_record (dimension_headers : option (list string))
    (metric_headers : option (list MetricHeaderEntry)) (row : ReportRow)
    (df_row : FlatRecord) :
  flatten_row dimension_headers metric_headers row = Ok df_row →
  df_row
  = record_of (row_pairs (default [] dimension_headers)
                 (default [] metric_headers) row).
Proof.
  unfold flatten_row, row_pairs, pyzip. intros H.
  destruct dimension_headers as [dh|]; simpl in H; [|discriminate].
  destruct (k_row_dimensions row) as [| |ds]; simpl in H; try discriminate.
  all: destruct (k_metrics row) as [| |groups]; simpl in H; try discriminate.
  all: first [ apply for_each_flatten_group in H as ->; rewrite setitems_app
             | injection H as <-; simpl; rewrite app_nil_r ].
  all: by rewrite setitems_record_of, (right_id_L ∅ (∪)).
Qed.

(** The header lists a successful [flatten_report] worked with. *)
Lemma flatten_report_headers (report : Report) (table : list FlatRecord) :
  flatten_report report = Ok table →
  ∃ dimension_headers metric_headers,
    collect (flatten_row dimension_headers metric_headers) (report_rows report)
    = Ok table
    ∧ default [] dimension_headers = report_dimension_headers report
    ∧ default [] metric_headers = report_metric_headers report.
Proof.
  unfold flatten_report. intros H.
  apply bind_Ok in H as (column_header & Hch & H).
  apply bind_Ok in H as (metric_header & Hmh & H).
  apply bind_Ok in H as (data & Hdata & H).
  apply bind_Ok in H as (rows & Hrows & H).
  exists (get_or (k_dimensions column_header) []),
    (get_or (k_metricHeaderEntries metric_header) []).
  split; [|split].
  - replace (report_rows report) with rows; [done|].
    unfold report_rows.
    destruct (k_data report) as [| |d]; simpl in Hdata;
      [injection Hdata as <- | discriminate | injection Hdata as <-].
    + simpl in Hrows. by injection Hrows as <-.
    + destruct (k_rows d); simpl in Hrows;
        [by injection Hrows as <- | discriminate | by injection Hrows as <-].
  - unfold report_dimension_headers.
    destruct (k_columnHeader report) as [| |ch]; simpl in Hch;
      [injection Hch as <- | discriminate | injection Hch as <-].
    + done.
    + by destruct (k_dimensions ch).
  - unfold report_metric_headers, header_entries.
    destruct (k_columnHeader report) as [| |ch]; simpl in Hch;
      [injection Hch as <- | discriminate | injection Hch as <-]; simpl in Hmh.
    + by injection Hmh as <-.
    + destruct (k_metricHeader ch) as [| |mh]; simpl in Hmh;
        [injection Hmh as <- | discriminate | injection Hmh as <-].
      * done.
      * by destruct (k_metricHeaderEntries mh).
Qed.

Lemma collect_map {A B} (body : A → result B) (g : A → B) (l : list A)
    (bs : list B) :
  (∀ a b, body a = Ok b → b = g a) →
  collect body l = Ok bs → bs = map g l.
Proof.
  intros Hg. revert bs. induction l as [|a l IH]; intros bs; simpl.
  - by intros [= <-].
  - intros H. apply bind_Ok in H as (b & Hb & H).
    apply bind_Ok in H as (bs' & Hbs & [= <-]).
    by rewrite (Hg a b Hb), (IH bs' Hbs).
Qed.

(** The table a successful [response_to_data_frame] returns. *)
Lemma response_to_data_frame_table (response : Response)
    (earlier : list Report) (report : Report) (table : list FlatRecord) :
  k_reports response = Val (earlier ++ [report]) →
  response_to_data_frame response = Ok table →
  table
  = map (λ row, record_of (row_pairs (report_dimension_headers report)
                             (report_metric_headers report) row))
      (report_rows report).
Proof.
  intros Hreports Hrun.
  pose proof (response_to_data_frame_Ok _ _ _ _ Hreports Hrun) as Hearlier.
  rewrite (response_to_data_frame_last _ _ _ Hreports Hearlier) in Hrun.
  apply flatten_report_headers in Hrun as (dh & mh & Hcollect & <- & <-).
  apply (collect_map _ _ _ _ (flatten_row_record dh mh) Hcollect).
Qed.

(** X1. A table that [response_to_data_frame] returns holds, for each row
    of the last report in order, the dict of the assignments of that row:
    every dimension header paired with the value at its position, then the
    metric names paired with the values of each group in turn, a later
    assignment replacing an earlier one of the same key. *)
Theorem table_is_rows_as_dicts (response : Response) (earlier : list Report)
    (report : Report) (table : list FlatRecord) :
  k_reports response = Val (earlier ++ [report]) →
  response_to_data_frame response = Ok table →
  table
  = map (λ row, record_of (row_pairs (report_dimension_headers report)
                             (report_metric_headers report) row))
      (report_rows report).
Proof. apply response_to_data_frame_table. Qed.

(** X1 on the response with two reports. *)
Lemma table_is_rows_as_dicts_witness :
  response_to_data_frame two_reports
  = Ok (map (λ row, record_of (row_pairs
                                 (report_dimension_headers two_ranges_report)
                                 (report_metric_headers two_ranges_report) row))
          (report_rows two_ranges_report)).
Proof.
  rewrite <- (table_is_rows_as_dicts two_reports [earlier_report]
                two_ranges_report
                [ {[ Some "date" := "20200901"; Some "sessions" := "20";
                     Some "users" := "9" ]} ] eq_refl);
    vm_compute; reflexivity.
Defined.

Lemma lookup_record_of_Some (pairs : list (option string * string)) k v :
  record_of pairs !! k = Some v → (k, v) ∈ pairs.
Proof.
  unfold record_of. intros H. apply elem_of_list_to_map_2 in H.
  by apply (proj1 (elem_of_reverse _ _)).
Qed.

Lemma lookup_record_of_is_Some (pairs : list (option string * string)) k :
  is_Some (record_of pairs !! k) ↔ ∃ v, (k, v) ∈ pairs.
Proof.
  split.
  - intros [v Hv]. exists v. by apply lookup_record_of_Some.
  - intros [v Hv]. unfold record_of.
    destruct (list_to_map (reverse pairs) !! k) as [v'|] eqn:Hk; [eauto|].
    apply not_elem_of_list_to_map_2 in Hk. exfalso. apply Hk.
    apply list_elem_of_fmap. exists (k, v). split; [done|].
    by apply (proj2 (elem_of_reverse _ _)).
Qed.

(** X2. A record of the table holds no key and no value of its own making:
    a key is present exactly when the row assigns it, and the value under
    it is one the row pairs with that key.  A header beyond the end of the
    value list it is paired with gets no entry. *)
Theorem record_entries_from_row (response : Response) (earlier : list Report)
    (report : Report) (table : list FlatRecord) (i : nat) (row : ReportRow) :
  k_reports response = Val (earlier ++ [report]) →
  response_to_data_frame response = Ok table →
  report_rows report !! i = Some row →
  ∃ df_row,
    table !! i = Some df_row
    ∧ (∀ k, is_Some (df_row !! k)
            ↔ ∃ v, (k, v) ∈ row_pairs (report_dimension_headers report)
                              (report_metric_headers report) row)
    ∧ (∀ k v, df_row !! k = Some v →
              (k, v) ∈ row_pairs (report_dimension_headers report)
                         (report_metric_headers report) row).
Proof.
  intros Hreports Hrun Hrow.
  rewrite (response_to_data_frame_table _ _ _ _ Hreports Hrun).
  eexists. split; [by rewrite lookup_map, Hrow|]. split.
  - apply lookup_record_of_is_Some.
  - apply lookup_record_of_Some.
Qed.

(** X3. When the keys the row assigns are pairwise distinct, its record
    maps a key to a value exactly when the row pairs them: each dimension
    header to the dimension value at its position and each metric name to
    the metric value at its position. *)
Theorem record_of_distinct_columns (response : Response)
    (earlier : list Report) (report : Report) (table : list FlatRecord)
    (i : nat) (row : ReportRow) :
  k_reports response = Val (earlier ++ [report]) →
  response_to_data_frame response = Ok table →
  report_rows report !! i = Some row →
  NoDup (map fst (row_pairs (report_dimension_headers report)
                    (report_metric_headers report) row)) →
  ∃ df_row,
    table !! i = Some df_row
    ∧ ∀ k v, df_row !! k = Some v
             ↔ (k, v) ∈ row_pairs (report_dimension_headers report)
                          (report_metric_headers report) row.
Proof.
  intros Hreports Hrun Hrow Hdistinct.
  rewrite (response_to_data_frame_table _ _ _ _ Hreports Hrun).
  eexists. split; [by rewrite lookup_map, Hrow|].
  intros k v. unfold record_of. rewrite <- elem_of_list_to_map.
  - apply elem_of_reverse.
  - change (map fst ?l) with (fst <$> l) in Hdistinct.
    rewrite fmap_reverse. by rewrite reverse_Permutation.
Qed.

(** ** The exceptions of the flattening *)

Lemma collect_Raise {A B} (body : A → result B) (l : list A) (e : exn) :
  collect body l = Raise e → ∃ a, a ∈ l ∧ body a = Raise e.
Proof.
  induction l as [|a l IH]; simpl; [done|].
  destruct (body a) as [b|e'] eqn:Hb; simpl.
  - destruct (collect body l) as [bs|e'']; simpl; [done|].
    intros [= ->]. destruct (IH eq_refl) as (a' & Hin & Ha').
    exists a'. split; [by right|done].
  - intros [= ->]. exists a. split; [by left|done].
Qed.

Lemma for_each_Raise {A S} (body : S → A → result S) (l : list A) (s : S)
    (e : exn) :
  for_each body l s = Raise e → ∃ a s', a ∈ l ∧ body s' a = Raise e.
Proof.
  revert s. induction l as [|a l IH]; intros s; simpl; [done|].
  destruct (body s a) as [s1|e'] eqn:Hb; simpl.
  - intros (a' & s' & Hin & Ha')%IH. exists a', s'. split; [by right|done].
  - intros [= ->]. exists a, s. split; [by left|done].
Qed.

Lemma pyzip_Raise {A B} (a : option (list A)) (b : option (list B)) (e : exn) :
  pyzip a b = Raise e → e = TypeError.
Proof. unfold pyzip. destruct a, b; simpl; intros H; congruence. Qed.

Lemma flatten_row_Raise (dimension_headers : option (list string))
    (metric_headers : option (list MetricHeaderEntry)) (row : ReportRow)
    (e : exn) :
  flatten_row dimension_headers metric_headers row = Raise e → e = TypeError.
Proof.
  unfold flatten_row.
  destruct (pyzip dimension_headers _) as [pairs|e'] eqn:Hzip; simpl.
  - destruct (get_or (k_metrics row) []) as [groups|]; simpl;
      [|intros H; congruence].
    intros (group & df_row & _ & Hgroup)%for_each_Raise.
    unfold flatten_group in Hgroup.
    destruct (pyzip metric_headers _) as [pairs'|e''] eqn:Hzip'; simpl in Hgroup;
      [done|].
    injection Hgroup as <-. by apply pyzip_Raise in Hzip'.
  - intros [= <-]. by apply pyzip_Raise in Hzip.
Qed.

Lemma flatten_report_Raise (report : Report) (e : exn) :
  flatten_report report = Raise e → e = TypeError ∨ e = AttributeError.
Proof.
  unfold flatten_report.
  destruct (get_or (k_columnHeader report) _) as [column_header|]; simpl;
    [|intros [= <-]; by right].
  destruct (get_or (k_metricHeader column_header) _) as [metric_header|]; simpl;
    [|intros [= <-]; by right].
  destruct (get_or (k_data report) _) as [data|]; simpl;
    [|intros [= <-]; by right].
  destruct (get_or (k_rows data) []) as [rows|]; simpl;
    [|intros [= <-]; by left].
  intros (row & _ & Hrow)%collect_Raise. left.
  by apply flatten_row_Raise in Hrow.
Qed.

(** The loop over the reports leaves [df_raws] unbound only if it does not
    run, and raises what the flattening of a report raises. *)
Lemma for_each_reports (reports : list Report)
    (df_raws : option (list FlatRecord)) :
  match for_each (λ _ report, let* t := flatten_report report in Ok (Some t))
          reports df_raws with
  | Ok None => reports = [] ∧ df_raws = None
  | Ok (Some _) => True
  | Raise e => e = TypeError ∨ e = AttributeError
  end.
Proof.
  revert df_raws. induction reports as [|report reports IH]; intros df_raws.
  - simpl. by destruct df_raws.
  - simpl. destruct (flatten_report report) as [table|e] eqn:Hreport; simpl.
    + specialize (IH (Some table)).
      destruct (for_each _ reports (Some table)) as [[?|]|?]; try done.
      by destruct IH.
    + by apply flatten_report_Raise in Hreport.
Qed.

(** X4. [response_to_data_frame] raises [UnboundLocalError] exactly when
    the response has no report to loop over: the reports key is absent or
    holds the empty list. *)
Theorem unbound_iff_no_reports (response : Response) :
  response_to_data_frame response = Raise UnboundLocalError
  ↔ k_reports response = Missing ∨ k_reports response = Val [].
Proof.
  unfold response_to_data_frame. split.
  - destruct (k_reports response) as [| |reports]; simpl; [by left|done|].
    pose proof (for_each_reports reports None) as Hloop.
    destruct (for_each _ reports None) as [[table|]|e]; simpl.
    + done.
    + destruct Hloop as [-> _]. by right.
    + intros [= ->]. by destruct Hloop.
  - by intros [-> | ->].
Qed.

(** X5. [response_to_data_frame] reads every key with [get]: whatever the
    response, the only exceptions it raises are [TypeError],
    [AttributeError] and [UnboundLocalError], never [KeyError] or
    [IndexError]. *)
Theorem response_to_data_frame_exceptions (response : Response) (e : exn) :
  response_to_data_frame response = Raise e →
  e = TypeError ∨ e = AttributeError ∨ e = UnboundLocalError.
Proof.
  unfold response_to_data_frame.
  destruct (get_or (k_reports response) []) as [reports|]; simpl;
    [|intros [= <-]; by left].
  pose proof (for_each_reports reports None) as Hloop.
  destruct (for_each _ reports None) as [[table|]|e']; simpl.
  - done.
  - intros [= <-]. by right; right.
  - intros [= <-]. destruct Hloop; [by left|by right; left].
Qed.

(** X5 on a response whose reports key holds [None]. *)
Lemma response_to_data_frame_exceptions_witness :
  response_to_data_frame {| k_reports := Null |} = Raise TypeError
  ∧ (TypeError = TypeError ∨ TypeError = AttributeError
     ∨ TypeError = UnboundLocalError).
Proof.
  split; [reflexivity|].
  apply (response_to_data_frame_exceptions {| k_reports := Null |}).
  reflexivity.
Defined.

(** ** Further properties of the header normalisation *)

Lemma collect_strip_ga_total (entries : list MetricHeaderEntry) :
  forallb (λ header, present (k_name header)) entries = true →
  ∃ entries1, collect strip_ga entries = Ok entries1.
Proof.
  induction entries as [|header entries IH]; simpl; [eauto|].
  intros [Hname Hrest]%andb_prop. destruct (IH Hrest) as [entries1 Hentries1].
  assert (∃ header1, strip_ga header = Ok header1) as [header1 Hheader1].
  { unfold strip_ga. destruct (k_name header) as [| |name]; try discriminate.
    cbn [bind getitem subscriptable]. destruct (String.eqb _ _); eauto. }
  rewrite Hheader1. simpl. rewrite Hentries1. simpl. eauto.
Qed.

Lemma collect_strip_ga_names (entries entries1 : list MetricHeaderEntry) :
  collect strip_ga entries = Ok entries1 →
  forallb (λ header, present (k_name header)) entries = true.
Proof.
  intros H%collect_Forall2.
  induction H as [|header header1 entries entries1 Hstrip _ IH]; [done|].
  simpl. rewrite IH, andb_true_r.
  apply strip_ga_Ok in Hstrip as (name & -> & _). done.
Qed.

(** X6. [del_ga] subscripts every key it reads: it returns a response
    exactly when the first report has a column header with its dimensions
    and its metric header entries, each entry with a name; on any other
    response it raises. *)
Theorem del_ga_succeeds_iff_ready (response : Response) :
  del_ga_ready response = true ↔ ∃ response1, del_ga response = Ok response1.
Proof.
  split.
  - unfold del_ga_ready, del_ga.
    destruct (k_reports response) as [| |[|report others]]; try done.
    cbn [bind getitem subscriptable iterable].
    destruct (k_columnHeader report) as [| |column_header]; try done.
    cbn [bind getitem subscriptable iterable].
    intros [Hdims Hentries]%andb_prop.
    destruct (k_dimensions column_header) as [| |dimensions]; try done.
    destruct (k_metricHeader column_header) as [| |metric_header]; try done.
    cbn [bind getitem subscriptable iterable].
    destruct (k_metricHeaderEntries metric_header) as [| |entries]; try done.
    destruct (collect_strip_ga_total entries Hentries) as [entries1 Hentries1].
    cbn [bind getitem subscriptable iterable]. rewrite Hentries1.
    cbn [bind]. eauto.
  - intros [response1 H].
    apply del_ga_Ok in H
      as (report & others & ch & mh & entries & dims & entries1
          & Hreports & Hch & Hmh & Hentries & Hdims & Hcollect & _).
    unfold del_ga_ready. rewrite Hreports, Hch, Hdims, Hmh, Hentries. simpl.
    by apply (collect_strip_ga_names entries entries1).
Qed.

Lemma count_chars_drop (skip : nat) (s : string) :
  count_chars skip s = count_chars 0 (drop_bytes skip s).
Proof.
  revert skip. induction s as [|c s IH]; intros [|skip]; try done.
  cbn [count_chars drop_bytes]. apply IH.
Qed.

(** Nothing is left after the first [n] characters exactly when there are
    no more than [n]. *)
Lemma slice_from_empty (n : nat) (s : string) :
  slice_from n s = "" ↔ (str_len s ≤ n)%nat.
Proof.
  unfold str_len. revert s. induction n as [|n IH]; intros [|c s];
    cbn [slice_from count_chars].
  - split; [lia|done].
  - split; [done|lia].
  - split; [lia|done].
  - rewrite IH, <- count_chars_drop. lia.
Qed.

(** X7. [del_ga] replaces every dimension header of the first report by
    the header without its first three characters, whether or not these
    are ga:.  The characters are those of the [str], whatever the number
    of bytes each takes: what is cut off is ga: exactly when the header
    begins with ga:, and nothing is left of a header exactly when it has
    three characters or fewer. *)
Theorem del_ga_dimension_headers_sliced (response response1 : Response) :
  del_ga response = Ok response1 →
  ∃ report report1 others,
    k_reports response = Val (report :: others)
    ∧ k_reports response1 = Val (report1 :: others)
    ∧ report_dimension_headers report1
      = map (slice_from 3) (report_dimension_headers report)
    ∧ ∀ header,
        String.append (slice_to 3 header) (slice_from 3 header) = header
        ∧ (String.prefix "ga:" header = true ↔ slice_to 3 header = "ga:")
        ∧ (slice_from 3 header = "" ↔ (str_len header ≤ 3)%nat).
Proof.
  intros H.
  apply del_ga_Ok in H
    as (report & others & ch & mh & entries & dims & entries1
        & Hreports & Hch & Hmh & Hentries & Hdims & Hcollect & ->).
  eexists report, _, others. split; [done|]. split; [done|]. split.
  - unfold report_dimension_headers. simpl. by rewrite Hch, Hdims.
  - intros header. split; [apply slice_to_from|]. split.
    + by rewrite <- eqb_slice_prefix, String.eqb_eq.
    + apply slice_from_empty.
Qed.

(** X7 on the page with the dimensions ga:date and дата: the first loses
    its prefix, the second its first three letters. *)
Lemma del_ga_dimension_headers_sliced_witness :
  str_len "дата" = 4
  ∧ ∃ response1,
      del_ga cyrillic_page = Ok response1
      ∧ first_column_header response1
        = Some (Val (header ["date"; "а"] ["sessions"]))
      ∧ ∃ report report1 others,
          k_reports cyrillic_page = Val (report :: others)
          ∧ k_reports response1 = Val (report1 :: others)
          ∧ report_dimension_headers report1
            = map (slice_from 3) (report_dimension_headers report)
          ∧ ∀ header,
              String.append (slice_to 3 header) (slice_from 3 header) = header
              ∧ (String.prefix "ga:" header = true ↔ slice_to 3 header = "ga:")
              ∧ (slice_from 3 header = "" ↔ (str_len header ≤ 3)%nat).
Proof.
  split; [reflexivity|].
  eexists. split; [reflexivity|]. split; [reflexivity|].
  apply (del_ga_dimension_headers_sliced cyrillic_page). reflexivity.
Defined.

(** The groups of a row are flattened without an exception exactly when
    each has its values; the exception is a [TypeError]. *)
Lemma for_each_group_cases (metric_headers : list MetricHeaderEntry)
    (groups : list DateRangeValues) (df_row : FlatRecord) :
  if forallb (λ group, present (k_values group)) groups
  then ∃ df_row',
         for_each (flatten_group (Some metric_headers)) groups df_row
         = Ok df_row'
  else for_each (flatten_group (Some metric_headers)) groups df_row
       = Raise TypeError.
Proof.
  revert df_row. induction groups as [|group groups IH]; intros df_row; simpl.
  - eauto.
  - unfold flatten_group at 1 3, pyzip.
    destruct (k_values group) as [| |values]; simpl; try done.
    apply IH.
Qed.

Lemma flatten_row_cases (dimension_headers : list string)
    (metric_headers : list MetricHeaderEntry) (row : ReportRow) :
  if row_well_shaped row
  then ∃ df_row,
         flatten_row (Some dimension_headers) (Some metric_headers) row
         = Ok df_row
  else flatten_row (Some dimension_headers) (Some metric_headers) row
       = Raise TypeError.
Proof.
  unfold row_well_shaped, flatten_row, pyzip.
  destruct (k_row_dimensions row) as [| |values]; simpl; try done.
  all: destruct (k_metrics row) as [| |groups]; simpl; eauto.
  all: apply for_each_group_cases.
Qed.

Lemma collect_rows_cases (dimension_headers : list string)
    (metric_headers : list MetricHeaderEntry) (rows : list ReportRow) :
  if forallb row_well_shaped rows
  then ∃ table,
         collect (flatten_row (Some dimension_headers) (Some metric_headers))
           rows = Ok table
         ∧ length table = length rows
  else collect (flatten_row (Some dimension_headers) (Some metric_headers))
         rows = Raise TypeError.
Proof.
  induction rows as [|row rows IH]; simpl; [eauto|].
  pose proof (flatten_row_cases dimension_headers metric_headers row) as Hrow.
  destruct (row_well_shaped row); simpl.
  - destruct Hrow as [df_row ->]. simpl.
    destruct (forallb row_well_shaped rows).
    + destruct IH as (table & -> & Hlen). simpl. eexists. split; [done|].
      simpl. by rewrite Hlen.
    + by rewrite IH.
  - by rewrite Hrow.
Qed.

(** The flattening of a report with its header lists depends on their
    contents for the keys of the records only. *)
Lemma flatten_report_same_outcome (report report1 : Report)
    (column_header column_header1 : ColumnHeader)
    (metric_header metric_header1 : MetricHeader)
    (dimension_headers dimension_headers1 : list string)
    (entries entries1 : list MetricHeaderEntry) :
  k_columnHeader report = Val column_header →
  k_dimensions column_header = Val dimension_headers →
  k_metricHeader column_header = Val metric_header →
  k_metricHeaderEntries metric_header = Val entries →
  k_columnHeader report1 = Val column_header1 →
  k_dimensions column_header1 = Val dimension_headers1 →
  k_metricHeader column_header1 = Val metric_header1 →
  k_metricHeaderEntries metric_header1 = Val entries1 →
  k_data report1 = k_data report →
  same_outcome (flatten_report report) (flatten_report report1).
Proof.
  intros Hch Hdims Hmh Hentries Hch1 Hdims1 Hmh1 Hentries1 Hdata.
  unfold flatten_report.
  rewrite Hch, Hch1, Hdata. simpl.
  rewrite Hdims, Hdims1, Hmh, Hmh1. simpl. rewrite Hentries, Hentries1. simpl.
  destruct (k_data report) as [| |[[| |rows]]]; simpl; try done.
  pose proof (collect_rows_cases dimension_headers entries rows) as Hrows.
  pose proof (collect_rows_cases dimension_headers1 entries1 rows) as Hrows1.
  destruct (forallb row_well_shaped rows).
  - destruct Hrows as (table & -> & Hlen), Hrows1 as (table1 & -> & Hlen1).
    simpl. by rewrite Hlen, Hlen1.
  - by rewrite Hrows, Hrows1.
Qed.

(** The report [del_ga] rewrites is flattened to a table of the same
    length, or raises the same exception. *)
Lemma del_ga_same_outcome (response response1 : Response) :
  del_ga response = Ok response1 →
  ∃ report report1 others,
    k_reports response = Val (report :: others)
    ∧ k_reports response1 = Val (report1 :: others)
    ∧ same_outcome (flatten_report report) (flatten_report report1).
Proof.
  intros H.
  apply del_ga_Ok in H
    as (report & others & ch & mh & entries & dims & entries1
        & Hreports & Hch & Hmh & Hentries & Hdims & Hcollect & ->).
  eexists report, _, others. split; [done|]. split; [done|].
  by eapply flatten_report_same_outcome.
Qed.

(** The loop over the reports keeps the table of the last one only. *)
Lemma for_each_reports_state (reports : list Report)
    (df_raws df_raws1 : option (list FlatRecord)) :
  reports ≠ [] →
  for_each (λ _ report, let* t := flatten_report report in Ok (Some t))
    reports df_raws
  = for_each (λ _ report, let* t := flatten_report report in Ok (Some t))
      reports df_raws1.
Proof. by destruct reports. Qed.

(** X8. On a response with two or more reports, [del_ga] has no effect on
    the table: it rewrites the headers of the first report, and
    [response_to_data_frame] builds the table from the last. *)
Theorem del_ga_lost_on_later_reports (response response1 : Response)
    (report : Report) (others : list Report) :
  del_ga response = Ok response1 →
  k_reports response = Val (report :: others) →
  others ≠ [] →
  response_to_data_frame response1 = response_to_data_frame response.
Proof.
  intros (report' & report1 & others' & Hreports' & Hreports1 & Hsame)
           %del_ga_same_outcome Hreports Hothers.
  rewrite Hreports in Hreports'. injection Hreports' as <- <-.
  unfold response_to_data_frame. rewrite Hreports, Hreports1. simpl.
  destruct (flatten_report report) as [table|e],
    (flatten_report report1) as [table1|e1]; simpl in *; try done.
  - by rewrite (for_each_reports_state others (Some table1) (Some table)).
  - by subst.
Qed.

(** X8 on the response with two reports, whose first has the dimension
    ga:date: the table is the one of the second report, with and without
    the normalisation. *)
Lemma del_ga_lost_on_later_reports_witness :
  ∃ response1,
    del_ga prefixed_page = Ok response1
    ∧ response_to_data_frame response1 = response_to_data_frame prefixed_page.
Proof.
  eexists. split; [reflexivity|].
  eapply (del_ga_lost_on_later_reports prefixed_page); [reflexivity..|done].
Defined.



(** ** Further properties of the pagination *)

Section PaginatorRuns.

Context {Dimensions Metrics Filters World : Type}.
Variable execute :
  ReportRequest Dimensions Metrics Filters → World → result Response * World.
Variable profile_id : string.
Variable dims : Dimensions.
Variable mets : Metrics.
Variable filters : Filters.
Variable date_from date_to : string.
Variable page_size : Z.

(** The functions of the pagination at the query of this section. *)
Local Abbreviation request :=
  (report_request profile_id dims mets filters date_from date_to page_size).
Local Abbreviation next_pages :=
  (while_next_page execute profile_id dims mets filters date_from date_to
     page_size).
Local Abbreviation full_report :=
  (get_full_report execute profile_id dims mets filters date_from date_to
     page_size).
Local Abbreviation serving :=
  (serves execute profile_id dims mets filters date_from date_to page_size).
Local Abbreviation link :=
  (linked profile_id dims mets filters date_from date_to page_size).

Implicit Types (token : option string) (world : World) (page : Response).
Implicit Types (pages : list Response) (rows : list ReportRow) (fuel : nat).
Implicit Types (calls events : list (Event (Dimensions:=Dimensions)
                                       (Metrics:=Metrics) (Filters:=Filters))).

(** The calls of a loop that came to an end, whatever the end. *)
Lemma next_pages_linked fuel :
  ∀ (rows0 : option (list ReportRow)) token world calls
    (outcome : result (option (list ReportRow))) world' calls',
    next_pages fuel rows0 token (world, calls)
    = Some (outcome, (world', calls')) →
    ∃ events,
      calls' = calls ++ events
      ∧ match token with
        | None => events = []
        | Some _ => events ≠ [] ∧ link token events
        end.
Proof.
  induction fuel as [|fuel IH];
    intros rows0 [next|] world calls outcome world' calls' Hrun.
  - discriminate.
  - injection Hrun as _ _ <-. exists []. by rewrite app_nil_r.
  - simpl in Hrun. unfold fbind at 1, get_report in Hrun. simpl in Hrun.
    destruct (execute _ world) as [[page|e] world1].
    + unfold fbind at 1, fret at 1 in Hrun.
      destruct (first_token page) as [token1|e] eqn:Htoken.
      * unfold fbind at 1, fret at 1 in Hrun.
        destruct (rows_extend rows0 page) as [rows2|e].
        -- apply IH in Hrun as (events & -> & Hevents).
           exists ((request (Some next), Ok page) :: events).
           split; [by rewrite <- app_assoc|]. split; [done|].
           split; [done|]. intros Hmore.
           destruct token1 as [next1|]; [|done].
           exists page, next1. by destruct Hevents.
        -- injection Hrun as _ _ <-. eexists [_]. by repeat split.
      * injection Hrun as _ _ <-. eexists [_]. by repeat split.
    + injection Hrun as _ _ <-. eexists [_]. by repeat split.
  - injection Hrun as _ _ <-. exists []. by rewrite app_nil_r.
Qed.

Lemma full_report_linked fuel token world calls (outcome : result Response)
    world' calls' :
  full_report fuel token (world, calls) = Some (outcome, (world', calls')) →
  ∃ events, calls' = calls ++ events ∧ events ≠ [] ∧ link token events.
Proof.
  unfold get_full_report. intros Hrun.
  unfold fbind at 1, get_report in Hrun. simpl in Hrun.
  destruct (execute _ world) as [[page|e] world1].
  - unfold fbind at 1, fret at 1 in Hrun.
    destruct (first_rows page) as [rows0|e].
    + unfold fbind at 1, fret at 1 in Hrun.
      destruct (first_token page) as [token1|e] eqn:Htoken.
      * unfold fbind at 1 in Hrun.
        destruct (next_pages _ _ _ _) as [[loop_outcome [world2 calls2]]|]
          eqn:Hloop; [|discriminate].
        apply next_pages_linked in Hloop as (events & -> & Hevents).
        assert (calls' = (calls ++ [(request token, Ok page)]) ++ events) as ->.
        { destruct loop_outcome as [rows1|e].
          - unfold fbind, fret in Hrun.
            by destruct (set_first_rows page rows1); injection Hrun as _ _ <-.
          - by injection Hrun as _ _ <-. }
        exists ((request token, Ok page) :: events).
        split; [by rewrite <- app_assoc|]. split; [done|].
        split; [done|]. intros Hmore.
        destruct token1 as [next1|]; [|done].
        exists page, next1. by destruct Hevents.
      * injection Hrun as _ _ <-. eexists [_]. by repeat split.
    + injection Hrun as _ _ <-. eexists [_]. by repeat split.
  - injection Hrun as _ _ <-. eexists [_]. by repeat split.
Qed.

Lemma linked_lookup events :
  ∀ token,
    link token events →
    ∀ i event event',
      events !! i = Some event →
      events !! S i = Some event' →
      ∃ page next,
        event.2 = Ok page
        ∧ first_token page = Ok (Some next)
        ∧ event'.1 = request (Some next).
Proof.
  induction events as [|event0 events IH];
    intros token Hlinked i event event' Hi Hsi; [done|].
  destruct Hlinked as [Hrequest Hmore].
  assert (events ≠ []) as Hne by (by destruct events, i).
  destruct (Hmore Hne) as (page & next & Hpage & Htoken & Hlink).
  destruct i as [|i]; simpl in Hi, Hsi.
  - injection Hi as <-. exists page, next. repeat split; try done.
    destruct events as [|event1 events]; [done|].
    injection Hsi as <-. by destruct Hlink.
  - by apply (IH (Some next) Hlink i).
Qed.

(** X10. In every run of [get_full_report] that comes to an end, with a
    response or with an exception, the call log only grows, the first call
    is made with the token the caller gave, and a call is followed by
    another only if it returned a page with a continuation token, with
    which the next call is made: no call is repeated, and none follows a
    failed one. *)
Theorem calls_follow_tokens fuel token world calls (outcome : result Response)
    world' calls' :
  full_report fuel token (world, calls) = Some (outcome, (world', calls')) →
  ∃ first events,
    calls' = calls ++ first :: events
    ∧ first.1 = request token
    ∧ ∀ i event event',
        (first :: events) !! i = Some event →
        (first :: events) !! S i = Some event' →
        ∃ page next,
          event.2 = Ok page
          ∧ first_token page = Ok (Some next)
          ∧ event'.1 = request (Some next).
Proof.
  intros (events & -> & Hne & Hlink)%full_report_linked.
  destruct events as [|first events]; [done|].
  exists first, events. split; [done|]. split; [by destruct Hlink|].
  by apply (linked_lookup _ token).
Qed.

(** X11. The loop has no bound of its own: against a provider that answers
    every call with a page that has rows and a continuation token,
    [get_full_report] is still fetching when the fuel is spent, however
    much there is. *)
Theorem endless_tokens_never_return fuel token world calls :
  (∀ token world,
     ∃ page world1 next rows,
       execute (request token) world = (Ok page, world1)
       ∧ first_token page = Ok (Some next)
       ∧ first_rows page = Ok (Some rows)) →
  full_report fuel token (world, calls) = None.
Proof.
  intros Hprovider.
  assert (∀ fuel rows next world calls,
            next_pages fuel (Some rows) (Some next) (world, calls) = None)
    as Hloop.
  { clear fuel world calls. induction fuel as [|fuel IH];
      intros rows next world calls; [done|].
    destruct (Hprovider (Some next) world)
      as (page & world1 & next1 & more & Hexecute & Htoken & Hrows).
    erewrite next_pages_step; [apply IH|eassumption..]. }
  destruct (Hprovider token world)
    as (page & world1 & next & rows & Hexecute & Htoken & Hrows).
  erewrite full_report_first; [|eassumption..].
  by rewrite Hloop.
Qed.







(** X14. A page of a query that matched nothing has no rows key.
    [response_to_data_frame] turns such a page into the empty table, but
    [get_full_report] stores [None] under the key it read as absent, and
    on the response it returns [response_to_data_frame] raises a
    [TypeError]. *)
Theorem absent_rows_break_the_table fuel token world calls page world1
    (report : Report) (data : ReportData) :
  execute (request token) world = (Ok page, world1) →
  k_reports page = Val [report] →
  k_data report = Val data →
  k_rows data = Missing →
  get (k_nextPageToken report) = None →
  report_well_shaped report = true →
  ∃ merged,
    full_report fuel token (world, calls)
    = Some (Ok merged, (world1, calls ++ [(request token, Ok page)]))
    ∧ response_to_data_frame page = Ok []
    ∧ response_to_data_frame merged = Raise TypeError.
Proof.
  intros Hexecute Hreports Hdata Hrows Htoken Hshape.
  assert (first_rows page = Ok None) as Hfirst.
  { unfold first_rows. rewrite Hreports. simpl. rewrite Hdata. simpl.
    by rewrite Hrows. }
  assert (first_token page = Ok None) as Hnext.
  { unfold first_token. rewrite Hreports. simpl. by rewrite Htoken. }
  erewrite full_report_first; [|eassumption..].
  rewrite next_pages_done. unfold set_first_rows. rewrite Hreports. simpl.
  rewrite Hdata. simpl. eexists. split; [done|].
  unfold response_to_data_frame, flatten_report. rewrite Hreports. simpl.
  unfold report_well_shaped in Hshape. apply andb_prop in Hshape as [Hheader _].
  rewrite Hdata. simpl. rewrite Hrows.
  destruct (k_columnHeader report) as [| |[dimension_headers [| |metric_header]]];
    simpl in *; try done.
  all: try (apply andb_prop in Hheader as [_ Hentries]; simpl in Hentries).
  all: try done.
Qed.

(** X15. A page without rows cannot be part of a longer extraction: when
    the first page has a continuation token and the next page is fetched,
    [get_full_report] raises an [AttributeError] if the first page has no
    rows, and a [TypeError] if the first has rows and the second has none,
    in both cases after exactly two calls. *)
Theorem missing_rows_stop_extraction fuel token world calls page0 world1 next
    page1 world2 (rows0 : option (list ReportRow)) token1 :
  execute (request token) world = (Ok page0, world1) →
  first_rows page0 = Ok rows0 →
  first_token page0 = Ok (Some next) →
  execute (request (Some next)) world1 = (Ok page1, world2) →
  first_token page1 = Ok token1 →
  match rows0 with
  | None => True
  | Some _ => first_rows page1 = Ok None
  end →
  full_report (S fuel) token (world, calls)
  = Some (Raise (match rows0 with
                 | None => AttributeError
                 | Some _ => TypeError
                 end),
          (world2,
           calls ++ [(request token, Ok page0);
                     (request (Some next), Ok page1)])).
Proof.
  intros Hexecute0 Hrows0 Htoken0 Hexecute1 Htoken1 Hrows1.
  erewrite full_report_first; [|eassumption..].
  simpl. unfold fbind at 1, get_report. simpl. rewrite Hexecute1.
  unfold fbind at 1, fret at 1. rewrite Htoken1.
  unfold fbind at 1, fret at 1, rows_extend. rewrite <- app_assoc. simpl.
  destruct rows0 as [rows|]; simpl; [|done]. by rewrite Hrows1.
Qed.

End PaginatorRuns.

(** X2 on the row with two metric groups. *)
Lemma record_entries_from_row_witness :
  ∃ df_row,
    [ ({[ Some "date" := "20200901"; Some "sessions" := "20";
          Some "users" := "9" ]} : FlatRecord) ] !! 0 = Some df_row
    ∧ (∀ k, is_Some (df_row !! k)
            ↔ ∃ v, (k, v) ∈ row_pairs
                              (report_dimension_headers two_ranges_report)
                              (report_metric_headers two_ranges_report)
                              (row ["20200901"] [["10"; "7"]; ["20"; "9"]]))
    ∧ (∀ k v, df_row !! k = Some v →
              (k, v) ∈ row_pairs (report_dimension_headers two_ranges_report)
                         (report_metric_headers two_ranges_report)
                         (row ["20200901"] [["10"; "7"]; ["20"; "9"]])).
Proof.
  apply (record_entries_from_row two_reports [earlier_report]
           two_ranges_report _ 0);
    [reflexivity | vm_compute; reflexivity | reflexivity].
Defined.

(** X3 on the page of the flattening example, whose columns are date,
    sourceMedium and sessions. *)
Lemma record_of_distinct_columns_witness :
  ∃ df_row,
    [ ({[ Some "date" := "20200901"; Some "sourceMedium" := "google / cpc";
          Some "sessions" := "42" ]} : FlatRecord) ] !! 0 = Some df_row
    ∧ ∀ k v, df_row !! k = Some v
             ↔ (k, v) ∈ [ (Some "date", "20200901");
                          (Some "sourceMedium", "google / cpc");
                          (Some "sessions", "42") ].
Proof.
  apply (record_of_distinct_columns example_page []
           (report (header ["date"; "sourceMedium"] ["sessions"])
              [row ["20200901"; "google / cpc"] [["42"]]] Missing) _ 0
           (row ["20200901"; "google / cpc"] [["42"]]));
    [reflexivity | vm_compute; reflexivity | reflexivity |].
  by apply (bool_decide_unpack _).
Defined.

(** X10 on the script that fails on page 2 of 3. *)
Lemma calls_follow_tokens_witness :
  ∃ outcome world' calls',
    run_scripted failing_script 1 = Some (outcome, (world', calls'))
    ∧ ∃ first events,
        calls' = [] ++ first :: events
        ∧ first.1
          = report_request "view" tt tt tt "2020-09-01" "2020-09-01" 1000 None
        ∧ ∀ i event event',
            (first :: events) !! i = Some event →
            (first :: events) !! S i = Some event' →
            ∃ page next,
              event.2 = Ok page
              ∧ first_token page = Ok (Some next)
              ∧ event'.1
                = report_request "view" tt tt tt "2020-09-01" "2020-09-01"
                    1000 (Some next).
Proof.
  eexists _, _, _. split; [reflexivity|].
  eapply (calls_follow_tokens scripted "view" tt tt tt "2020-09-01"
            "2020-09-01" 1000 1 None failing_script []).
  reflexivity.
Defined.

(** X11 on the provider that answers every call with the same page. *)
Lemma endless_tokens_never_return_witness :
  get_full_report endless "view" tt tt tt "2020-09-01" "2020-09-01" 1000
    1000 None (tt, []) = None.
Proof.
  apply endless_tokens_never_return. intros token world.
  exists page1, world, "1000", [row ["20200901"] [["1"]]]. by repeat split.
Defined.



(** X14 on the page without rows. *)
Lemma absent_rows_break_the_table_witness :
  ∃ merged,
    run_scripted [Ok no_rows_page] 0
    = Some (Ok merged,
            ([], [] ++ [(report_request "view" tt tt tt "2020-09-01"
                           "2020-09-01" 1000 None, Ok no_rows_page)]))
    ∧ response_to_data_frame no_rows_page = Ok []
    ∧ response_to_data_frame merged = Raise TypeError.
Proof.
  eapply (absent_rows_break_the_table scripted "view" tt tt tt "2020-09-01"
            "2020-09-01" 1000 0 None [Ok no_rows_page] [] no_rows_page []);
    reflexivity.
Defined.

(** X15 on the page without rows that carries a token. *)
Lemma missing_rows_stop_extraction_witness :
  run_scripted [Ok no_rows_token_page; Ok page3] 1
  = Some (Raise AttributeError,
          ([], [] ++ [(report_request "view" tt tt tt "2020-09-01"
                         "2020-09-01" 1000 None, Ok no_rows_token_page);
                      (report_request "view" tt tt tt "2020-09-01"
                         "2020-09-01" 1000 (Some "1000"), Ok page3)])).
Proof.
  apply (missing_rows_stop_extraction scripted "view" tt tt tt "2020-09-01"
           "2020-09-01" 1000 0 None [Ok no_rows_token_page; Ok page3] []
           no_rows_token_page [Ok page3] "1000" page3 [] None None);
    reflexivity.
Defined.
